(** * CARTABON1: the real-time location server ([src/server.js])

    A shallow embedding of the Express routes and of the Socket.IO
    handlers of [server.js], and the properties of the specification
    checked against it.

    The handlers are written in a small state-and-exception monad: the
    state holds the two Mongoose collections and the events handed to
    Socket.IO, an exception is what an [await]ed library call rejects
    with, and [try_catch] is the [try { ... } catch (err) { ... }] that
    wraps every route.  What the libraries compute (bcrypt digests,
    [parseFloat], the textual form of an ObjectId) is a parameter of the
    development.

    The collections are lists held in the state.  A call to the store
    fails only where Mongoose rejects its arguments, on a cast or on a
    validation against the schemas of [server.js]; the loss of the
    database is not modelled. *)

From Stdlib Require Import String Ascii List NArith ZArith Bool.
From Stdlib Require Import DecimalString DecimalN.
Import ListNotations.
Open Scope string_scope.

Set Implicit Arguments.

(** ** Identifiers and exceptions *)

(** A Mongo ObjectId is a 12-byte value. *)
Definition ObjectId : Type := N.

(** A Socket.IO connection id. *)
Definition SocketId : Type := N.

(** What a rejected library promise carries.  Only [err.message] is ever
    read by the server, so an exception is identified by its origin. *)
Inductive exn : Type :=
| CastError (path : string)        (* Mongoose: value not castable to the type of [path] *)
| ValidationError (path : string)  (* Mongoose: [required] path missing or empty *)
| DuplicateKey (path : string)     (* Mongo: [unique] index violated *)
| BcryptArguments.                 (* bcrypt: data/salt (or data/hash) arguments required *)

Inductive result (A : Type) : Type :=
| Ok (a : A)
| Throw (e : exn).
Arguments Ok {A} a.
Arguments Throw {A} e.

(** ** Request shapes *)

(** [req.body] of [POST /register]: each field is text or absent. *)
Record RegisterBody : Type := mkRegisterBody {
  reg_name : option string;
  reg_email : option string;
  reg_password : option string
}.

(** [req.body] of [POST /login]. *)
Record LoginBody : Type := mkLoginBody {
  login_email : option string;
  login_password : option string
}.

(** A file as multer's disk storage leaves it in [req.files]: [filename]
    is the generated name, [Date.now() + "-" + originalname]. *)
Record File : Type := mkFile {
  originalname : string;
  filename : string
}.

(** [req.files] as [upload.fields] leaves it for a multipart form, the
    content type of both marker routes: a key is present only when files
    were sent under it. *)
Record Files : Type := mkFiles {
  files_photos : option (list File);
  files_videos : option (list File)
}.

(** The multipart form of [POST /markers]: text fields, each present or
    not, and the files. *)
Record MarkerForm : Type := mkMarkerForm {
  form_latitude : option string;
  form_longitude : option string;
  form_title : option string;
  form_comment : option string;
  form_color : option string;
  form_userId : option string;
  form_files : Files
}.

(** The multipart form of [PATCH /markers/:id]. *)
Record EditForm : Type := mkEditForm {
  edit_title : option string;
  edit_comment : option string;
  edit_color : option string;
  edit_files : Files
}.

(** Values drawn while a request is served: the clock, the ObjectId the
    driver generates for a new document, the salt bcrypt generates. *)
Record Env : Type := mkEnv {
  now : N;
  new_id : ObjectId;
  salt : string
}.

(** [f => `/uploads/${f.filename}`] *)
Definition upload_path (f : File) : string := "/uploads/" ++ filename f.

(** [req.files.k ? req.files.k.map(f => ...) : []] *)
Definition paths_or_empty (fs : option (list File)) : list string :=
  match fs with
  | Some l => map upload_path l
  | None => []
  end.

Section Server.

(** *** Library parameters *)

(** JavaScript numbers other than NaN. *)
Variable number : Type.
(** The schema default [0]. *)
Variable zero : number.
(** [parseFloat] on text; [None] is NaN. *)
Variable parseFloat : string -> option number.
(** [bcrypt.hash]: rounds, generated salt, data. *)
Variable bcrypt_digest : N -> string -> string -> string.
(** [bcrypt.compare]: data, stored digest. *)
Variable bcrypt_verify : string -> string -> bool.
(** Mongoose's cast of text to an ObjectId; [None] when the text is not
    the textual form of one. *)
Variable castObjectId : string -> option ObjectId.

(** *** Documents *)

(** [userSchema] *)
Record User : Type := mkUser {
  user_id : ObjectId;
  user_name : string;
  user_email : string;
  user_password : string;
  user_latitude : number;
  user_longitude : number;
  user_createdAt : N
}.

(** [markerSchema] *)
Record Marker : Type := mkMarker {
  marker_id : ObjectId;
  marker_latitude : number;
  marker_longitude : number;
  marker_title : string;
  marker_comment : string;
  marker_color : string;
  marker_photos : list string;
  marker_videos : list string;
  marker_createdBy : option ObjectId;
  marker_createdAt : N
}.

(** What a stored-document query answers when the value it filters on
    is [undefined] (Mongoose releases differ: some drop the condition,
    some match it against null). *)
Variable findOne_undefined : list User -> option User.

(** The two collections, in insertion order. *)
Record Store : Type := mkStore {
  users : list User;
  markers : list Marker
}.

(** *** Push channel *)

Inductive event : Type :=
| allMarkers (ms : list Marker)
| newMarker (m : Marker)
| updatedMarker (m : Marker)
| positionsUpdate (userId : ObjectId) (name : string) (latitude longitude : number).

(** [io.emit] addresses every connected socket, [socket.emit] one. *)
Inductive emission : Type :=
| io_emit (e : event)
| socket_emit (to : SocketId) (e : event).

(** *** HTTP responses *)

Inductive body : Type :=
| json_message (s : string)                     (* { message: s } *)
| json_error (e : exn)                          (* { message: err.message } *)
| json_user (id : ObjectId) (name : string)     (* { user: { _id, name } } *)
| json_marker (m : Marker).                     (* the marker document *)

Record response : Type := mkResponse {
  status : N;
  payload : body
}.

(** *** The handler monad *)

Record State : Type := mkState {
  store : Store;
  emitted : list emission
}.

Definition M (A : Type) : Type := State -> result A * State.

Definition ret {A} (a : A) : M A := fun s => (Ok a, s).

Definition throw {A} (e : exn) : M A := fun s => (Throw e, s).

Definition bind {A B} (m : M A) (k : A -> M B) : M B :=
  fun s =>
    match m s with
    | (Ok a, s') => k a s'
    | (Throw e, s') => (Throw e, s')
    end.

(** [try { body } catch (err) { handler }], where neither branch lets an
    exception escape. *)
Definition try_catch {A} (body : M A) (handler : exn -> State -> A * State)
  : State -> A * State :=
  fun s =>
    match body s with
    | (Ok a, s') => (a, s')
    | (Throw e, s') => handler e s'
    end.

Definition get_store : M Store := fun s => (Ok (store s), s).

Definition put_store (st : Store) : M unit :=
  fun s => (Ok tt, mkState st (emitted s)).

Definition emit (e : emission) : M unit :=
  fun s => (Ok tt, mkState (store s) (emitted s ++ [e])).

(** The outcome of a library call that touches no collection. *)
Definition lift {A} (r : result A) : M A := fun s => (r, s).


Local Notation "x <- m ;; k" := (bind m (fun x => k))
  (at level 61, m at next level, right associativity).
Local Notation "m ;;; k" := (bind m (fun _ => k))
  (at level 61, right associativity).

(** *** The [User] model *)

(** A [required] String path rejects an absent and an empty value. *)
Definition required_string (path : string) (v : option string) : M string :=
  match v with
  | Some s => if s =? "" then throw (ValidationError path) else ret s
  | None => throw (ValidationError path)
  end.

(** The document [{ email }] selects in a collection. *)
Definition select_email (email : option string) (l : list User) : option User :=
  match email with
  | Some e => find (fun u => user_email u =? e) l
  | None => findOne_undefined l
  end.

(** [User.findOne({ email })] *)
Definition User_findOne (email : option string) : M (option User) :=
  st <- get_store ;;
  ret (select_email email (users st)).

(** [User.create({ name, email, password })]: the schema's [required]
    paths, the [unique] index on [email], the defaults of the other
    paths, then the insertion. *)
Definition User_create (env : Env) (name email password : option string) : M User :=
  n <- required_string "name" name ;;
  e <- required_string "email" email ;;
  p <- required_string "password" password ;;
  st <- get_store ;;
  if existsb (fun u => user_email u =? e) (users st)
  then throw (DuplicateKey "email")
  else
    let u := mkUser (new_id env) n e p zero zero (now env) in
    put_store (mkStore (users st ++ [u]) (markers st)) ;;;
    ret u.

(** The first document carrying the id is the one a write addresses. *)
Fixpoint update_user (u' : User) (l : list User) : list User :=
  match l with
  | [] => []
  | u :: tl =>
      if (user_id u =? user_id u')%N then u' :: tl else u :: update_user u' tl
  end.

Definition find_user (oid : ObjectId) (l : list User) : option User :=
  find (fun u => (user_id u =? oid)%N) l.

(** [{ latitude, longitude }] applied to a stored user. *)
Definition set_position (latitude longitude : number) (u : User) : User :=
  mkUser (user_id u) (user_name u) (user_email u) (user_password u)
         latitude longitude (user_createdAt u).

(** [User.findByIdAndUpdate(userId, { latitude, longitude }, { new: true })]:
    answers the document as it is after the update, or null. *)
Definition User_findByIdAndUpdate (userId : string) (latitude longitude : number)
  : M (option User) :=
  match castObjectId userId with
  | None => throw (CastError "_id")
  | Some oid =>
      st <- get_store ;;
      match find_user oid (users st) with
      | None => ret None
      | Some u =>
          let u' := set_position latitude longitude u in
          put_store (mkStore (update_user u' (users st)) (markers st)) ;;;
          ret (Some u')
      end
  end.

(** *** bcrypt *)

(** [bcrypt.hash(data, rounds)] rejects when [data] is absent. *)
Definition bcrypt_hash (env : Env) (data : option string) (rounds : N) : result string :=
  match data with
  | Some d => Ok (bcrypt_digest rounds (salt env) d)
  | None => Throw BcryptArguments
  end.

(** [bcrypt.compare(data, hash)] rejects when [data] is absent. *)
Definition bcrypt_compare (data : option string) (hash : string) : result bool :=
  match data with
  | Some d => Ok (bcrypt_verify d hash)
  | None => Throw BcryptArguments
  end.

(** *** Routes: accounts *)

(** [res.status(code).json(b)] *)
Definition json (code : N) (b : body) : response := mkResponse code b.

(** [catch (err) { res.status(500).json({ message: err.message }) }] *)
Definition server_error (err : exn) (s : State) : response * State :=
  (json 500 (json_error err), s).

(** [app.post("/register")] *)
Definition register (env : Env) (req : RegisterBody) : State -> response * State :=
  try_catch
    (existingUser <- User_findOne (reg_email req) ;;
     match existingUser with
     | Some _ => ret (json 400 (json_message "Email déjà utilisé"))
     | None =>
         hashedPassword <- lift (bcrypt_hash env (reg_password req) 10) ;;
         newUser <- User_create env (reg_name req) (reg_email req) (Some hashedPassword) ;;
         ret (json 201 (json_user (user_id newUser) (user_name newUser)))
     end)
    server_error.

(** [app.post("/login")] *)
Definition login (req : LoginBody) : State -> response * State :=
  try_catch
    (user <- User_findOne (login_email req) ;;
     match user with
     | None => ret (json 400 (json_message "Email ou mot de passe incorrect"))
     | Some u =>
         isMatch <- lift (bcrypt_compare (login_password req) (user_password u)) ;;
         if negb isMatch
         then ret (json 400 (json_message "Email ou mot de passe incorrect"))
         else ret (json 200 (json_user (user_id u) (user_name u)))
     end)
    server_error.

(** *** The [Marker] model *)

(** [parseFloat(v)] where [v] may be [undefined]: the text "undefined"
    is not a number. *)
Definition parseFloat_field (v : option string) : option number :=
  match v with
  | Some s => parseFloat s
  | None => None
  end.

(** A Number path: NaN cannot be cast. *)
Definition cast_number (path : string) (v : option number) : result number :=
  match v with
  | Some x => Ok x
  | None => Throw (ValidationError path)
  end.

(** [userId || null], then the cast of the ObjectId path [createdBy]. *)
Definition cast_createdBy (userId : option string) : result (option ObjectId) :=
  match userId with
  | None => Ok None
  | Some s =>
      if s =? "" then Ok None
      else match castObjectId s with
           | Some oid => Ok (Some oid)
           | None => Throw (ValidationError "createdBy")
           end
  end.

(** A String path with a schema default. *)
Definition with_default (default : string) (v : option string) : string :=
  match v with
  | Some s => s
  | None => default
  end.

(** [Marker.create({ latitude, longitude, title, comment, color, photos,
    videos, createdBy })] *)
Definition Marker_create (env : Env) (latitude longitude : option number)
    (title comment color : option string) (photos videos : list string)
    (userId : option string) : M Marker :=
  lat <- lift (cast_number "latitude" latitude) ;;
  lng <- lift (cast_number "longitude" longitude) ;;
  createdBy <- lift (cast_createdBy userId) ;;
  st <- get_store ;;
  let m := mkMarker (new_id env) lat lng
                    (with_default "" title) (with_default "" comment)
                    (with_default "#ff0000" color)
                    photos videos createdBy (now env) in
  put_store (mkStore (users st) (markers st ++ [m])) ;;;
  ret m.

Definition find_marker (oid : ObjectId) (l : list Marker) : option Marker :=
  find (fun m => (marker_id m =? oid)%N) l.

(** [Marker.findById(id)] *)
Definition Marker_findById (id : string) : M (option Marker) :=
  match castObjectId id with
  | None => throw (CastError "_id")
  | Some oid =>
      st <- get_store ;;
      ret (find_marker oid (markers st))
  end.

Fixpoint update_marker (m' : Marker) (l : list Marker) : list Marker :=
  match l with
  | [] => []
  | m :: tl =>
      if (marker_id m =? marker_id m')%N then m' :: tl else m :: update_marker m' tl
  end.

(** [marker.save()] on a fetched document. *)
Definition Marker_save (m : Marker) : M unit :=
  st <- get_store ;;
  put_store (mkStore (users st) (update_marker m (markers st))).

(** [Marker.find()] *)
Definition Marker_find : M (list Marker) :=
  st <- get_store ;;
  ret (markers st).

(** *** Routes: markers *)

(** [if (v !== undefined) marker.field = v] *)
Definition assign_if_defined (v : option string) (old : string) : string :=
  match v with
  | Some s => s
  | None => old
  end.

(** [if (req.files.k) marker.k = [...marker.k, ...req.files.k.map(...)]] *)
Definition append_uploads (fs : option (list File)) (old : list string) : list string :=
  match fs with
  | Some l => old ++ map upload_path l
  | None => old
  end.

(** [app.post("/markers")] *)
Definition addMarker (env : Env) (req : MarkerForm) : State -> response * State :=
  try_catch
    (let photos := paths_or_empty (files_photos (form_files req)) in
     let videos := paths_or_empty (files_videos (form_files req)) in
     newMarker' <- Marker_create env
                     (parseFloat_field (form_latitude req))
                     (parseFloat_field (form_longitude req))
                     (form_title req) (form_comment req) (form_color req)
                     photos videos (form_userId req) ;;
     emit (io_emit (newMarker newMarker')) ;;;
     ret (json 201 (json_marker newMarker')))
    server_error.

(** The assignments of [app.patch("/markers/:id")] between the fetch and
    the save. *)
Definition apply_edit (req : EditForm) (marker : Marker) : Marker :=
  mkMarker (marker_id marker) (marker_latitude marker) (marker_longitude marker)
           (assign_if_defined (edit_title req) (marker_title marker))
           (assign_if_defined (edit_comment req) (marker_comment marker))
           (assign_if_defined (edit_color req) (marker_color marker))
           (append_uploads (files_photos (edit_files req)) (marker_photos marker))
           (append_uploads (files_videos (edit_files req)) (marker_videos marker))
           (marker_createdBy marker) (marker_createdAt marker).

(** [app.patch("/markers/:id")] *)
Definition editMarker (id : string) (req : EditForm) : State -> response * State :=
  try_catch
    (found <- Marker_findById id ;;
     match found with
     | None => ret (json 404 (json_message "Marqueur non trouvé"))
     | Some marker =>
         let marker' := apply_edit req marker in
         Marker_save marker' ;;;
         emit (io_emit (updatedMarker marker')) ;;;
         ret (json 200 (json_marker marker'))
     end)
    server_error.

(** *** Socket.IO handlers *)

(** A value decoded from a Socket.IO packet.  Packets are JSON, so a
    number in one is never NaN. *)
Inductive jsval : Type :=
| js_undefined
| js_null
| js_boolean (b : bool)
| js_number (x : number)
| js_string (s : string)
| js_object.

Definition typeof (v : jsval) : string :=
  match v with
  | js_undefined => "undefined"
  | js_null => "object"
  | js_boolean _ => "boolean"
  | js_number _ => "number"
  | js_string _ => "string"
  | js_object => "object"
  end.

(** The argument of an [updatePosition] message; the sender names its
    user by the text of the id. *)
Record PositionMsg : Type := mkPositionMsg {
  msg_userId : string;
  msg_latitude : jsval;
  msg_longitude : jsval
}.

(** [catch (err) { console.error(...) }] *)
Definition log_only (err : exn) (s : State) : unit * State := (tt, s).

(** [sendAllMarkers], as bound to the connecting [socket]. *)
Definition sendAllMarkers (socket : SocketId) : State -> unit * State :=
  try_catch
    (ms <- Marker_find ;;
     emit (socket_emit socket (allMarkers ms)))
    log_only.

(** [socket.on("updatePosition", ...)] *)
Definition updatePosition (msg : PositionMsg) : State -> unit * State :=
  if negb (typeof (msg_latitude msg) =? "number")
     || negb (typeof (msg_longitude msg) =? "number")
  then fun s => (tt, s)
  else
    match msg_latitude msg, msg_longitude msg with
    | js_number latitude, js_number longitude =>
        try_catch
          (user <- User_findByIdAndUpdate (msg_userId msg) latitude longitude ;;
           match user with
           | Some u =>
               emit (io_emit (positionsUpdate (user_id u) (user_name u)
                                              (user_latitude u) (user_longitude u)))
           | None => ret tt
           end)
          log_only
    | _, _ => fun s => (tt, s)
    end.

(** *** Delivery *)

(** Whether an emission reaches socket [s] when [conns] are connected. *)
Definition reaches (conns : list SocketId) (s : SocketId) (em : emission) : bool :=
  match em with
  | io_emit _ => existsb (N.eqb s) conns
  | socket_emit to _ => (to =? s)%N && existsb (N.eqb s) conns
  end.

Definition event_of (em : emission) : event :=
  match em with
  | io_emit e => e
  | socket_emit _ e => e
  end.

(** The events socket [s] receives from a run of emissions, in order. *)
Definition received (conns : list SocketId) (s : SocketId) (ems : list emission)
  : list event :=
  map event_of (filter (reaches conns s) ems).

(** A handler run against the stored collections alone. *)
Definition run {A} (h : State -> A * State) (st : Store) : A * Store * list emission :=
  let '(a, s') := h (mkState st []) in (a, store s', emitted s').


(** *** The server as a transition system

    Handlers run one at a time, but [sendAllMarkers] gives the event
    loop back at [await Marker.find()]: whatever else is ready runs
    before its continuation emits.  A world holds the collections, the
    connected sockets with what each has received so far, and the
    sockets whose fetch is still awaited.  The fetch takes two moments:
    [snapshot], when [Marker.find()] reads the collection, and [fetched],
    when the promise resolves and the continuation emits what was read.
    The routes and [updatePosition] are taken whole, at the moment they
    emit: they emit at most once, after their last call to the store. *)

Record World : Type := mkWorld {
  w_store : Store;
  w_conns : list (SocketId * list event);
  w_fetching : list SocketId;
  w_snapshots : list (SocketId * list Marker)
}.

Inductive action : Type :=
| connect (s : SocketId)                                 (* io.on("connection") up to the await *)
| fetched (s : SocketId)                                 (* Marker.find() resolves for [s] *)
| disconnect (s : SocketId)
| post_register (env : Env) (req : RegisterBody)
| post_login (req : LoginBody)
| post_markers (env : Env) (req : MarkerForm)
| patch_markers (id : string) (req : EditForm)
| on_updatePosition (s : SocketId) (msg : PositionMsg)
| snapshot (s : SocketId).                               (* Marker.find() reads for [s] *)

Definition connected (w : World) : list SocketId := map fst (w_conns w).

Definition is_connected (w : World) (s : SocketId) : bool :=
  existsb (N.eqb s) (connected w).


(** Hand a run of emissions to the connected sockets. *)
Definition push (ems : list emission) (conns : list (SocketId * list event))
  : list (SocketId * list event) :=
  map (fun c : SocketId * list event =>
         (fst c, (snd c ++ received (map fst conns) (fst c) ems)%list))
      conns.

(** Run a handler to completion in a world. *)
Definition perform {A} (h : State -> A * State) (w : World) : World :=
  let '(_, st', ems) := run h (w_store w) in
  mkWorld st' (push ems (w_conns w)) (w_fetching w) (w_snapshots w).

(** What [Marker.find()] has read for socket [s], once it has. *)
Definition snapshot_of (w : World) (s : SocketId) : option (list Marker) :=
  match find (fun c : SocketId * list Marker => (fst c =? s)%N) (w_snapshots w) with
  | Some c => Some (snd c)
  | None => None
  end.

(** [sendAllMarkers] from its [await] on: [socket.emit("allMarkers", markers)]
    inside the [try]. *)
Definition sendAllMarkers_resume (socket : SocketId) (ms : list Marker)
  : State -> unit * State :=
  try_catch (emit (socket_emit socket (allMarkers ms))) log_only.

Definition step (w : World) (a : action) : option World :=
  match a with
  | connect s =>
      if is_connected w s || existsb (N.eqb s) (w_fetching w) then None
      else Some (mkWorld (w_store w) (w_conns w ++ [(s, [])]) (w_fetching w ++ [s])
                         (w_snapshots w))
  | snapshot s =>
      if existsb (N.eqb s) (w_fetching w)
      then
        match snapshot_of w s, fst (Marker_find (mkState (w_store w) [])) with
        | None, Ok ms =>
            Some (mkWorld (w_store w) (w_conns w) (w_fetching w)
                          (w_snapshots w ++ [(s, ms)]))
        | _, _ => None
        end
      else None
  | fetched s =>
      if existsb (N.eqb s) (w_fetching w)
      then
        match snapshot_of w s with
        | Some ms =>
            let w' := perform (sendAllMarkers_resume s ms) w in
            Some (mkWorld (w_store w') (w_conns w')
                          (filter (fun x => negb (x =? s)%N) (w_fetching w))
                          (filter (fun c => negb (fst c =? s)%N) (w_snapshots w)))
        | None => None
        end
      else None
  | disconnect s =>
      if is_connected w s
      then Some (mkWorld (w_store w)
                         (filter (fun c => negb (fst c =? s)%N) (w_conns w))
                         (w_fetching w) (w_snapshots w))
      else None
  | post_register env req => Some (perform (register env req) w)
  | post_login req => Some (perform (login req) w)
  | post_markers env req => Some (perform (addMarker env req) w)
  | patch_markers id req => Some (perform (editMarker id req) w)
  | on_updatePosition s msg =>
      if is_connected w s then Some (perform (updatePosition msg) w) else None
  end.

Fixpoint steps (w : World) (l : list action) : option World :=
  match l with
  | [] => Some w
  | a :: tl =>
      match step w a with
      | Some w' => steps w' tl
      | None => None
      end
  end.

(** The server right after start-up, on stored collections [st]. *)
Definition boot (st : Store) : World := mkWorld st [] [] [].





End Server.

Arguments json_message {number} s.
Arguments json_error {number} e.
Arguments json_user {number} id name.
Arguments js_undefined {number}.
Arguments js_null {number}.
Arguments js_boolean {number} b.
Arguments js_string {number} s.
Arguments js_object {number}.
Arguments connect {number} s.
Arguments fetched {number} s.
Arguments snapshot {number} s.
Arguments disconnect {number} s.
Arguments post_register {number} env req.
Arguments post_login {number} req.
Arguments post_markers {number} env req.
Arguments patch_markers {number} id req.

(** ** Uploads

    The marker routes are mounted behind
    [upload.fields([{ name: "photos", maxCount: 10 }, { name: "videos", maxCount: 10 }])]
    on multer's disk storage. *)

(** A file part of a multipart form as it reaches multer: the field it
    was sent under, its original name, and the clock when it is named. *)
Record FilePart : Type := mkFilePart {
  part_field : string;
  part_originalname : string;
  part_clock : N
}.

(** [Date.now() + "-" + file.originalname]: the clock in decimal, a dash,
    the original name. *)
Definition storage_filename (clock : N) (original : string) : string :=
  NilEmpty.string_of_uint (N.to_uint clock) ++ "-" ++ original.

(** The file the disk storage writes for a part. *)
Definition store_part (p : FilePart) : File :=
  mkFile (part_originalname p) (storage_filename (part_clock p) (part_originalname p)).

(** The [maxCount] of both fields. *)
Definition maxCount : nat := 10.

(** The parts of a request, taken in order against what each field has
    left.  A part without file name is passed over before anything else
    is looked at; of the others, a part under a field that has nothing
    left, or under a field that was not declared, rejects the request. *)
Fixpoint take_parts (left_photos left_videos : nat) (parts : list FilePart)
  : option (list File * list File) :=
  match parts with
  | [] => Some ([], [])
  | p :: tl =>
      if part_originalname p =? "" then take_parts left_photos left_videos tl
      else if part_field p =? "photos" then
        match left_photos with
        | O => None
        | S n =>
            match take_parts n left_videos tl with
            | Some (ps, vs) => Some (store_part p :: ps, vs)
            | None => None
            end
        end
      else if part_field p =? "videos" then
        match left_videos with
        | O => None
        | S n =>
            match take_parts left_photos n tl with
            | Some (ps, vs) => Some (ps, store_part p :: vs)
            | None => None
            end
        end
      else None
  end.

(** The parts of [parts] that carry a file name and were sent under
    [field]. *)
Definition files_under (field : string) (parts : list FilePart) : list FilePart :=
  filter (fun p => negb (part_originalname p =? "") && (part_field p =? field)) parts.

(** A part that carries a file name is under one of the two fields. *)
Definition declared (p : FilePart) : Prop :=
  part_originalname p = "" \/ part_field p = "photos" \/ part_field p = "videos".

(** A key of [req.files] exists once a file was appended under it. *)
Definition files_key (l : list File) : option (list File) :=
  match l with
  | [] => None
  | _ :: _ => Some l
  end.

(** [req.files] when the middleware lets the request through; [None]
    when it answers the request itself with its error. *)
Definition upload_fields (parts : list FilePart) : option Files :=
  match take_parts maxCount maxCount parts with
  | Some (ps, vs) => Some (mkFiles (files_key ps) (files_key vs))
  | None => None
  end.

Section Directory.

Variable number : Type.

(** A user document under the projection ["-__v -password"]. *)
Record UserView : Type := mkUserView {
  view_id : ObjectId;
  view_name : string;
  view_email : string;
  view_latitude : number;
  view_longitude : number;
  view_createdAt : N
}.

Definition project_user (u : User number) : UserView :=
  mkUserView (user_id u) (user_name u) (user_email u)
             (user_latitude u) (user_longitude u) (user_createdAt u).

(** [User.find({}, "-__v -password")] *)
Definition User_find : M number (list UserView) :=
  bind (get_store (number := number))
       (fun st => ret (map project_user (users st))).

(** What [GET /users] sends: the array, or [{ error: err.message }]. *)
Inductive users_body : Type :=
| json_users (l : list UserView)
| json_users_error (e : exn).

(** [app.get("/users")] *)
Definition listUsers : State number -> (N * users_body) * State number :=
  try_catch
    (bind User_find (fun us => ret (200%N, json_users us)))
    (fun err s => ((500%N, json_users_error err), s)).

(** *** What the collections keep *)

Definition prefix_of {A : Type} (l l' : list A) : Prop :=
  exists tl, l' = (l ++ tl)%list.

(** The same account: everything but the position. *)
Definition same_account (u u' : User number) : Prop :=
  user_id u' = user_id u
  /\ user_name u' = user_name u
  /\ user_email u' = user_email u
  /\ user_password u' = user_password u
  /\ user_createdAt u' = user_createdAt u.

(** The same marker, its media extended at the end at most. *)
Definition same_marker (m m' : Marker number) : Prop :=
  marker_id m' = marker_id m
  /\ marker_latitude m' = marker_latitude m
  /\ marker_longitude m' = marker_longitude m
  /\ marker_createdBy m' = marker_createdBy m
  /\ marker_createdAt m' = marker_createdAt m
  /\ prefix_of (marker_photos m) (marker_photos m')
  /\ prefix_of (marker_videos m) (marker_videos m').

(** [st'] holds every document of [st], at its place, and then more. *)
Definition keeps (st st' : Store number) : Prop :=
  (exists us extra,
     users st' = (us ++ extra)%list /\ Forall2 same_account (users st) us)
  /\ (exists ms extra,
        markers st' = (ms ++ extra)%list /\ Forall2 same_marker (markers st) ms).

(** No two users share an email. *)
Definition unique_emails (st : Store number) : Prop :=
  NoDup (map (fun u => user_email u) (users st)).

End Directory.

(** ** The routes as mounted

    [app.post("/markers", upload.fields(...), handler)]: the middleware
    runs first, and the handler only when the middleware lets the request
    through. *)

Section Mounted.

Variable number : Type.
Variable parseFloat : string -> option number.
Variable castObjectId : string -> option ObjectId.

(** What a number is once written by [JSON.stringify] and read back, as
    [res.json] and [io.emit] send it; [None] is [null], which is what
    Infinity becomes. *)
Variable json_number : number -> option number.

(** The text fields of the form of [POST /markers]. *)
Record MarkerText : Type := mkMarkerText {
  text_latitude : option string;
  text_longitude : option string;
  text_title : option string;
  text_comment : option string;
  text_color : option string;
  text_userId : option string
}.

(** [req.body] and [req.files] as the handler finds them. *)
Definition marker_form (t : MarkerText) (fs : Files) : MarkerForm :=
  mkMarkerForm (text_latitude t) (text_longitude t) (text_title t) (text_comment t)
               (text_color t) (text_userId t) fs.

(** What the client gets: the answer of the handler, or that of Express
    to the error the middleware passed on, a 500 the handler has no part
    in. *)
Inductive answer : Type :=
| route_answer (r : response number)
| upload_error.

Definition answer_status (a : answer) : N :=
  match a with
  | route_answer r => status r
  | upload_error => 500%N
  end.

(** A handler behind [upload.fields]. *)
Definition behind_upload (parts : list FilePart)
    (handler : Files -> State number -> response number * State number)
  : State number -> answer * State number :=
  fun s =>
    match upload_fields parts with
    | Some fs => let '(r, s') := handler fs s in (route_answer r, s')
    | None => (upload_error, s)
    end.

(** [app.post("/markers", upload.fields(...), ...)] *)
Definition postMarkers (env : Env) (t : MarkerText) (parts : list FilePart)
  : State number -> answer * State number :=
  behind_upload parts (fun fs => addMarker parseFloat castObjectId env (marker_form t fs)).

(** How the promise of an [async] listener ends: fulfilled, or rejected
    with nothing to catch it. *)
Inductive settlement : Type :=
| fulfilled
| rejected.

(** [socket.on("updatePosition", async ({ userId, latitude, longitude }) => ...)]
    on what the client sent: the payload is destructured in the
    parameter list, before the body and outside its [try]; [None] is a
    message without payload, or with [null], which cannot be
    destructured. *)
Definition on_updatePosition_message (payload : option (PositionMsg number))
  : State number -> settlement * State number :=
  match payload with
  | None => fun s => (rejected, s)
  | Some msg => fun s => let '(_, s') := updatePosition castObjectId msg s in (fulfilled, s')
  end.

(** The coordinates of a marker as a client reads them. *)
Definition wire_latitude (m : Marker number) : option number :=
  json_number (marker_latitude m).

Definition wire_longitude (m : Marker number) : option number :=
  json_number (marker_longitude m).

End Mounted.

Arguments upload_error {number}.

(** ** An executable instance of the library parameters

    Enough of the libraries to run the handlers on concrete requests:
    numbers are decimal fractions [mantissa / 10^scale], [parseFloat]
    reads the longest prefix [-?digits(.digits)?], an ObjectId is written
    as 24 hexadecimal digits, and the bcrypt stand-in keeps the salt and
    the data apart without hiding either. *)

Module Sample.

Open Scope Z_scope.

Record decimal : Type := mkDecimal {
  mantissa : Z;
  scale : nat
}.

Definition number : Type := decimal.

Definition zero : number := mkDecimal 0 0.

Definition digit_of (c : Ascii.ascii) : option Z :=
  let n := Z.of_nat (Ascii.nat_of_ascii c) in
  if (48 <=? n) && (n <=? 57) then Some (n - 48) else None.

(** The leading digits of [s], read onto [acc], with their count and
    the rest of the text. *)
Fixpoint read_digits (acc : Z) (count : nat) (s : string) : Z * nat * string :=
  match s with
  | EmptyString => (acc, count, s)
  | String c tl =>
      match digit_of c with
      | Some d => read_digits (10 * acc + d) (S count) tl
      | None => (acc, count, s)
      end
  end.

(** Drop the trailing zeros of the fraction. *)
Fixpoint normalise (m : Z) (k : nat) : number :=
  match k with
  | O => mkDecimal m 0
  | S k' => if m mod 10 =? 0 then normalise (m / 10) k' else mkDecimal m k
  end.

Definition read_unsigned (s : string) : option number :=
  let '(ip, ni, rest) := read_digits 0 0 s in
  match rest with
  | String "."%char tl =>
      let '(m, nf, _) := read_digits ip 0 tl in
      if ((ni + nf)%nat =? 0)%nat then None else Some (normalise m nf)
  | _ => if (ni =? 0)%nat then None else Some (mkDecimal ip 0)
  end.

Definition parseFloat (s : string) : option number :=
  match s with
  | String "-"%char tl =>
      match read_unsigned tl with
      | Some d => Some (mkDecimal (- mantissa d) (scale d))
      | None => None
      end
  | _ => read_unsigned s
  end.

Definition hex_of (c : Ascii.ascii) : option N :=
  let n := Ascii.N_of_ascii c in
  if (48 <=? n)%N && (n <=? 57)%N then Some (n - 48)%N
  else if (97 <=? n)%N && (n <=? 102)%N then Some (n - 87)%N
  else if (65 <=? n)%N && (n <=? 70)%N then Some (n - 55)%N
  else None.

Fixpoint read_hex (acc : N) (s : string) : option N :=
  match s with
  | EmptyString => Some acc
  | String c tl =>
      match hex_of c with
      | Some d => read_hex (16 * acc + d)%N tl
      | None => None
      end
  end.

Definition castObjectId (s : string) : option ObjectId :=
  if (String.length s =? 24)%nat then read_hex 0%N s else None.

Definition bcrypt_digest (rounds : N) (salt data : string) : string :=
  (salt ++ "$" ++ data)%string.

Definition bcrypt_verify (data digest : string) : bool :=
  let n := String.length digest in
  let m := String.length data in
  (m <? n)%nat && (substring (n - S m) (S m) digest =? "$" ++ data)%string.

Definition findOne_undefined (l : list (User number)) : option (User number) := None.

Definition register := register zero bcrypt_digest findOne_undefined.
Definition login := login bcrypt_verify findOne_undefined.
Definition addMarker := addMarker parseFloat castObjectId.
Definition editMarker := editMarker (number := number) castObjectId.
Definition updatePosition := updatePosition (number := number) castObjectId.
Definition steps :=
  steps zero parseFloat bcrypt_digest bcrypt_verify castObjectId findOne_undefined.

Definition env0 : Env := mkEnv 1700000000000%N 1%N "salt".

Definition alice : User number :=
  mkUser 10%N "Alice" "alice@example.org" "salt$secret" zero zero 0%N.

Definition eiffel : Marker number :=
  mkMarker 1%N (mkDecimal 4885 2) (mkDecimal 235 2) "Eiffel" "" "#ff0000"
           [] [] None 1700000000000%N.

Definition empty_store : Store number := mkStore [] [].

Definition no_files : Files := mkFiles None None.

Definition eiffel_form : MarkerForm :=
  mkMarkerForm (Some "48.85") (Some "2.35") (Some "Eiffel") None None None no_files.

(** The same form without its latitude field, and with a latitude that
    is not a number. *)
Definition no_latitude_form : MarkerForm :=
  mkMarkerForm None (Some "2.35") (Some "Eiffel") None None None no_files.

Definition bad_latitude_form : MarkerForm :=
  mkMarkerForm (Some "abc") (Some "2.35") (Some "Eiffel") None None None no_files.

Definition alice_store : Store number := mkStore [alice] [].

Definition eiffel_store : Store number := mkStore [] [eiffel].

(** A marker that already has three photos. *)
Definition gallery : Marker number :=
  mkMarker 2%N (mkDecimal 4886 2) (mkDecimal 229 2) "Louvre" "museum" "#0000ff"
           ["/uploads/1-a.png"; "/uploads/2-b.png"; "/uploads/3-c.png"] []
           (Some 10%N) 1700000000001%N.

Definition gallery_store : Store number := mkStore [alice] [eiffel; gallery].

Definition two_photos : Files :=
  mkFiles (Some [mkFile "d.png" "4-d.png"; mkFile "e.png" "5-e.png"]) None.

(** Ids as the clients write them. *)
Definition eiffel_id : string := "000000000000000000000001".
Definition gallery_id : string := "000000000000000000000002".
Definition unknown_id : string := "0000000000000000000000ff".
Definition alice_id : string := "00000000000000000000000a".

(** Title and color sent, the title empty; comment not sent. *)
Definition retitle : EditForm := mkEditForm (Some "") None (Some "#00ff00") no_files.

Definition add_two_photos : EditForm := mkEditForm (Some "Louvre") None None two_photos.


Definition listUsers := listUsers (number := number).

(** Every decimal is finite. *)
Definition json_number (x : number) : option number := Some x.

Definition postMarkers := postMarkers parseFloat castObjectId.

Definition eiffel_text : MarkerText :=
  mkMarkerText (Some "48.85") (Some "2.35") (Some "Eiffel") None None None.

(** Eleven photos. *)
Definition eleven_photos : list FilePart :=
  map (fun n => mkFilePart "photos" "p.png" n)
      [1%N; 2%N; 3%N; 4%N; 5%N; 6%N; 7%N; 8%N; 9%N; 10%N; 11%N].

Definition bob_request : RegisterBody :=
  mkRegisterBody (Some "Bob") (Some "bob@example.org") (Some "pw").

Definition nameless_request : RegisterBody :=
  mkRegisterBody None (Some "bob@example.org") (Some "pw").

(** Bob as [bob_request] registers him under [env0]. *)
Definition bob : User number :=
  mkUser 1%N "Bob" "bob@example.org" "salt$pw" zero zero 1700000000000%N.

(** A form with two photos, a creator and no color. *)
Definition louvre_form : MarkerForm :=
  mkMarkerForm (Some "48.86") (Some "2.29") (Some "Louvre") (Some "museum") None
               (Some alice_id) two_photos.

(** A form whose creator id is not the text of an ObjectId. *)
Definition bad_creator_form : MarkerForm :=
  mkMarkerForm (Some "48.86") (Some "2.29") None None None (Some "me") no_files.

Definition nothing_sent : EditForm := mkEditForm None None None no_files.

Definition recolor : EditForm := mkEditForm None None (Some "#123456") two_photos.

(** Two photos and a video, as they arrive. *)
Definition three_parts : list FilePart :=
  [mkFilePart "photos" "d.png" 4%N; mkFilePart "videos" "clip.mp4" 4%N;
   mkFilePart "photos" "e.png" 5%N].

(** The same with two parts that carry no file: one under a field that
    was not declared, one under [photos]. *)
Definition mixed_parts : list FilePart :=
  mkFilePart "avatar" "" 3%N :: mkFilePart "photos" "" 3%N :: three_parts.

(** A run of the server: socket 7 connects, Bob registers, the Eiffel
    marker is edited, a marker is created, socket 7 moves Alice, its
    fetch reads and resolves, and it leaves. *)
Definition busy_day : list (action number) :=
  [connect 7%N;
   post_register env0 bob_request;
   patch_markers eiffel_id recolor;
   post_markers (mkEnv 1700000000002%N 3%N "salt") louvre_form;
   on_updatePosition 7%N
     (mkPositionMsg alice_id (js_number (mkDecimal 4885 2)) (js_number (mkDecimal 235 2)));
   snapshot 7%N;
   fetched 7%N;
   disconnect 7%N].

End Sample.

(** ** Properties of the routes *)

(** The routes, for [autounfold]. *)
Create HintDb routes.
#[export] Hint Unfold run register login addMarker editMarker updatePosition : routes.

Ltac step_in H := cbn [step] in H.

Section Accounts.

Variable number : Type.
Variable zero : number.
Variable bcrypt_digest : N -> string -> string -> string.
Variable bcrypt_verify : string -> string -> bool.
Variable findOne_undefined : list (User number) -> option (User number).

Local Abbreviation select_email := (select_email findOne_undefined).
Local Abbreviation login := (login bcrypt_verify findOne_undefined).
Local Abbreviation register := (register zero bcrypt_digest findOne_undefined).

(** The generic answer of [POST /login]. *)
Local Abbreviation invalid_credentials :=
  (json (number := number) 400 (json_message "Email ou mot de passe incorrect")).

(** A stored user with the email is what the filter selects first. *)
Lemma select_email_In (e : string) (l : list (User number)) (u : User number) :
  In u l -> user_email u = e -> exists u', select_email (Some e) l = Some u'.
Proof.
  intros Hin He. simpl.
  destruct (find (fun u0 => user_email u0 =? e) l) as [u'|] eqn:Hf.
  - now exists u'.
  - exfalso. apply (find_none _ _ Hf) in Hin.
    rewrite He, String.eqb_refl in Hin. discriminate.
Qed.

(** What [POST /login] answers, by the outcome of the lookup and of
    the comparison. *)
Lemma login_run (st : Store number) (req : LoginBody) :
  run (login req) st =
  (match select_email (login_email req) (users st) with
   | None => invalid_credentials
   | Some u =>
       match bcrypt_compare bcrypt_verify (login_password req) (user_password u) with
       | Ok true => json 200 (json_user (user_id u) (user_name u))
       | Ok false => invalid_credentials
       | Throw e => json 500 (json_error e)
       end
   end, st, []).
Proof.
  autounfold with routes; unfold try_catch, bind, User_findOne, get_store, ret, lift.
  simpl.
  destruct (select_email (login_email req) (users st)) as [u|]; [|reflexivity].
  destruct (bcrypt_compare bcrypt_verify (login_password req) (user_password u))
    as [[|]|e]; reflexivity.
Qed.

(** C1, as the route has it.  A login whose email selects no user, or
    whose password the comparison finds not to match the stored digest,
    is answered 400 with one and the same message; a login whose email
    selects a user and whose password matches is answered 200 with that
    user's id and name; a login whose email selects a user and whose
    comparison throws is answered 500 with the error.  In every case the
    collections are left as they were and nothing is emitted. *)
Theorem login_answers (st : Store number) (req : LoginBody) :
  exists r,
    run (login req) st = (r, st, [])
    /\ (select_email (login_email req) (users st) = None ->
        status r = 400%N
        /\ payload r = json_message "Email ou mot de passe incorrect")
    /\ (forall u,
          select_email (login_email req) (users st) = Some u ->
          bcrypt_compare bcrypt_verify (login_password req) (user_password u) = Ok false ->
          status r = 400%N
          /\ payload r = json_message "Email ou mot de passe incorrect")
    /\ (forall u,
          select_email (login_email req) (users st) = Some u ->
          bcrypt_compare bcrypt_verify (login_password req) (user_password u) = Ok true ->
          status r = 200%N
          /\ payload r = json_user (user_id u) (user_name u))
    /\ (forall u e,
          select_email (login_email req) (users st) = Some u ->
          bcrypt_compare bcrypt_verify (login_password req) (user_password u) = Throw e ->
          status r = 500%N
          /\ payload r = json_error e).
Proof.
  rewrite login_run.
  destruct (select_email (login_email req) (users st)) as [u|].
  - destruct (bcrypt_compare bcrypt_verify (login_password req) (user_password u))
      as [[|]|e] eqn:Hcmp; eexists; (split; [reflexivity|]);
      repeat split; intros; try discriminate;
      repeat match goal with
             | H : Some _ = Some _ |- _ => injection H as <-
             end; simpl; congruence.
  - eexists. split; [reflexivity|].
    repeat split; intros; try discriminate; reflexivity.
Qed.

(** C2.  Registering an email that a stored user already has is answered
    400 with the duplicate-email message; the collections are left as
    they were, so no user is added and the number of users is the
    same. *)
Theorem register_duplicate_email
    (env : Env) (st : Store number) (req : RegisterBody)
    (e : string) (u : User number) :
  reg_email req = Some e -> In u (users st) -> user_email u = e ->
  exists st',
    run (register env req) st =
      (json 400 (json_message "Email déjà utilisé"), st', [])
    /\ st' = st
    /\ length (users st') = length (users st).
Proof.
  intros Hreq Hin He. exists st. split; [|split; reflexivity].
  destruct (@select_email_In e (users st) u Hin He) as [u' Hu'].
  autounfold with routes; unfold try_catch, bind, User_findOne, get_store, ret.
  simpl. rewrite Hreq, Hu'. reflexivity.
Qed.

(** C10, as the route has it.  When the password is absent and the email
    selects no stored user, the hashing step throws, the answer is 500
    and no user is created. *)
Theorem register_without_password_unknown_email
    (env : Env) (st : Store number) (req : RegisterBody) :
  reg_password req = None ->
  select_email (reg_email req) (users st) = None ->
  run (register env req) st = (json 500 (json_error BcryptArguments), st, []).
Proof.
  intros Hpw Hsel.
  autounfold with routes; unfold try_catch, bind, User_findOne, get_store, ret, lift.
  simpl. rewrite Hsel, Hpw. reflexivity.
Qed.

End Accounts.

Section Markers.

Variable number : Type.
Variable parseFloat : string -> option number.
Variable castObjectId : string -> option ObjectId.

Local Abbreviation addMarker := (addMarker parseFloat castObjectId).
Local Abbreviation editMarker := (editMarker (number := number) castObjectId).
Local Abbreviation parseFloat_field := (parseFloat_field parseFloat).
Local Abbreviation cast_createdBy := (cast_createdBy castObjectId).

Lemma existsb_eqb_In (s : SocketId) (conns : list SocketId) :
  In s conns -> existsb (N.eqb s) conns = true.
Proof.
  intros Hin. apply existsb_exists. exists s. split; [assumption|apply N.eqb_refl].
Qed.

(** An [io.emit] reaches every connected socket, once. *)
Lemma received_io_emit (conns : list SocketId) (s : SocketId) (e : event number) :
  In s conns -> received conns s [io_emit e] = [e].
Proof.
  intros Hin. unfold received. simpl. now rewrite (existsb_eqb_In s conns Hin).
Qed.

(** The document fetched by id carries that id. *)
Lemma find_marker_id (oid : ObjectId) (l : list (Marker number)) (m : Marker number) :
  find_marker oid l = Some m -> marker_id m = oid.
Proof.
  intros Hf. apply find_some in Hf. destruct Hf as [_ Heq].
  now apply N.eqb_eq in Heq.
Qed.

(** After a save, the id resolves to the saved document. *)
Lemma find_marker_update (oid : ObjectId) (l : list (Marker number))
    (m m' : Marker number) :
  find_marker oid l = Some m -> marker_id m' = oid ->
  find_marker oid (update_marker m' l) = Some m'.
Proof.
  intros Hf Hid. induction l as [|x tl IH]; [discriminate|].
  simpl in *. rewrite Hid.
  destruct (marker_id x =? oid)%N eqn:Hx.
  - simpl. now rewrite Hid, N.eqb_refl.
  - simpl. rewrite Hx. now apply IH.
Qed.

(** [PATCH /markers/:id] on an id that resolves. *)
Lemma editMarker_found (st : Store number) (id : string) (req : EditForm)
    (oid : ObjectId) (marker : Marker number) :
  castObjectId id = Some oid ->
  find_marker oid (markers st) = Some marker ->
  run (editMarker id req) st =
    (json 200 (json_marker (apply_edit req marker)),
     mkStore (users st) (update_marker (apply_edit req marker) (markers st)),
     [io_emit (updatedMarker (apply_edit req marker))]).
Proof.
  intros Hcast Hfind.
  autounfold with routes; unfold try_catch, bind, Marker_findById, Marker_save,
    get_store, put_store, emit, ret.
  rewrite Hcast. simpl. rewrite Hfind. reflexivity.
Qed.

(** C3.  Editing an existing marker overwrites each of title, comment
    and color exactly when the form carries the field: with the value
    sent, the empty text included; a field the form lacks keeps its
    stored value.  The edited document is what the id resolves to
    afterwards. *)
Theorem editMarker_text_fields (st : Store number) (id : string) (req : EditForm)
    (oid : ObjectId) (marker : Marker number) :
  castObjectId id = Some oid ->
  find_marker oid (markers st) = Some marker ->
  exists marker' st',
    run (editMarker id req) st =
      (json 200 (json_marker marker'), st', [io_emit (updatedMarker marker')])
    /\ find_marker oid (markers st') = Some marker'
    /\ (forall t, edit_title req = Some t -> marker_title marker' = t)
    /\ (edit_title req = None -> marker_title marker' = marker_title marker)
    /\ (forall t, edit_comment req = Some t -> marker_comment marker' = t)
    /\ (edit_comment req = None -> marker_comment marker' = marker_comment marker)
    /\ (forall t, edit_color req = Some t -> marker_color marker' = t)
    /\ (edit_color req = None -> marker_color marker' = marker_color marker).
Proof.
  intros Hcast Hfind.
  exists (apply_edit req marker).
  exists (mkStore (users st) (update_marker (apply_edit req marker) (markers st))).
  split; [now apply editMarker_found with (oid := oid)|].
  split.
  { simpl. apply find_marker_update with (m := marker); [assumption|].
    simpl. now apply find_marker_id with (l := markers st). }
  repeat split; intros; simpl;
    match goal with H : _ = _ |- _ => rewrite H; reflexivity end.
Qed.

(** C4.  Editing an existing marker leaves in its photos the photos it
    had, in their order, followed by the paths of the photo files of the
    request; without photo files the list is the one it was.  The same
    holds of the videos. *)
Theorem editMarker_appends_media (st : Store number) (id : string) (req : EditForm)
    (oid : ObjectId) (marker : Marker number) :
  castObjectId id = Some oid ->
  find_marker oid (markers st) = Some marker ->
  exists marker' st',
    run (editMarker id req) st =
      (json 200 (json_marker marker'), st', [io_emit (updatedMarker marker')])
    /\ find_marker oid (markers st') = Some marker'
    /\ marker_photos marker' =
         (marker_photos marker ++ paths_or_empty (files_photos (edit_files req)))%list
    /\ marker_videos marker' =
         (marker_videos marker ++ paths_or_empty (files_videos (edit_files req)))%list
    /\ (files_photos (edit_files req) = None ->
        marker_photos marker' = marker_photos marker)
    /\ (files_videos (edit_files req) = None ->
        marker_videos marker' = marker_videos marker)
    /\ (forall fs, files_photos (edit_files req) = Some fs ->
        length (marker_photos marker') = (length (marker_photos marker) + length fs)%nat)
    /\ (forall fs, files_videos (edit_files req) = Some fs ->
        length (marker_videos marker') = (length (marker_videos marker) + length fs)%nat).
Proof.
  intros Hcast Hfind.
  exists (apply_edit req marker).
  exists (mkStore (users st) (update_marker (apply_edit req marker) (markers st))).
  split; [now apply editMarker_found with (oid := oid)|].
  split.
  { simpl. apply find_marker_update with (m := marker); [assumption|].
    simpl. now apply find_marker_id with (l := markers st). }
  simpl. unfold append_uploads, paths_or_empty.
  destruct (files_photos (edit_files req)) as [ps|];
    destruct (files_videos (edit_files req)) as [vs|];
    rewrite ?app_nil_r;
    repeat split; intros; try discriminate;
    repeat match goal with H : Some _ = Some _ |- _ => injection H as <- end;
    now rewrite ?length_app, ?length_map.
Qed.

(** C5, as the route has it.  When the id of the request is the text of
    an ObjectId that no stored marker carries, the answer is 404, the
    collections are left as they were and nothing is emitted.  (An id
    that is not the text of an ObjectId makes the fetch throw: the
    answer is then 500, again with nothing stored or emitted.) *)
Theorem editMarker_unknown_id (st : Store number) (id : string) (req : EditForm) :
  (forall oid,
     castObjectId id = Some oid ->
     find_marker oid (markers st) = None ->
     run (editMarker id req) st =
       (json 404 (json_message "Marqueur non trouvé"), st, []))
  /\ (castObjectId id = None ->
      run (editMarker id req) st = (json 500 (json_error (CastError "_id")), st, [])).
Proof.
  split.
  - intros oid Hcast Hfind.
    autounfold with routes; unfold try_catch, bind, Marker_findById, get_store, ret.
    rewrite Hcast. simpl. rewrite Hfind. reflexivity.
  - intros Hcast.
    autounfold with routes; unfold try_catch, bind, Marker_findById, throw.
    rewrite Hcast. reflexivity.
Qed.

End Markers.


Section Positions.

Variable number : Type.
Variable castObjectId : string -> option ObjectId.

Local Abbreviation updatePosition := (updatePosition (number := number) castObjectId).

Lemma typeof_number (v : jsval number) :
  typeof v = "number" -> exists x, v = js_number x.
Proof.
  destruct v; simpl; intros H; try discriminate. now eexists.
Qed.

Lemma find_user_id (oid : ObjectId) (l : list (User number)) (u : User number) :
  find_user oid l = Some u -> user_id u = oid.
Proof.
  intros Hf. apply find_some in Hf. destruct Hf as [_ Heq].
  now apply N.eqb_eq in Heq.
Qed.

Lemma find_user_update (oid : ObjectId) (l : list (User number)) (u u' : User number) :
  find_user oid l = Some u -> user_id u' = oid ->
  find_user oid (update_user u' l) = Some u'.
Proof.
  intros Hf Hid. induction l as [|x tl IH]; [discriminate|].
  simpl in *. rewrite Hid.
  destruct (user_id x =? oid)%N eqn:Hx.
  - simpl. now rewrite Hid, N.eqb_refl.
  - simpl. rewrite Hx. now apply IH.
Qed.

(** What the guard drops.  An [updatePosition] message whose payload is
    an object and whose latitude or longitude is not a number is dropped: the collections are left as they were and
    nothing is emitted, to the sender or to anyone. *)
Theorem updatePosition_not_numeric (st : Store number) (msg : PositionMsg number) :
  typeof (msg_latitude msg) <> "number" \/ typeof (msg_longitude msg) <> "number" ->
  run (updatePosition msg) st = (tt, st, []).
Proof.
  intros H. autounfold with routes.
  destruct (typeof (msg_latitude msg) =? "number") eqn:Hlat;
    destruct (typeof (msg_longitude msg) =? "number") eqn:Hlng;
    simpl; try reflexivity.
  apply String.eqb_eq in Hlat, Hlng. destruct H as [H|H]; contradiction.
Qed.

(** C8.  An [updatePosition] message with numeric latitude and
    longitude: when the user id resolves to a stored user, that user's
    latitude and longitude become those of the message and every
    connected socket, the sender among them, receives [positionsUpdate]
    with the user's id and name and the two coordinates; when it does
    not resolve, the collections are left as they were and nothing is
    emitted. *)
Theorem updatePosition_numeric (st : Store number) (conns : list SocketId)
    (sender : SocketId) (msg : PositionMsg number) :
  typeof (msg_latitude msg) = "number" ->
  typeof (msg_longitude msg) = "number" ->
  exists latitude longitude,
    msg_latitude msg = js_number latitude
    /\ msg_longitude msg = js_number longitude
    /\ (forall oid u,
          castObjectId (msg_userId msg) = Some oid ->
          find_user oid (users st) = Some u ->
          exists st',
            run (updatePosition msg) st =
              (tt, st',
               [io_emit (positionsUpdate (user_id u) (user_name u) latitude longitude)])
            /\ find_user oid (users st') = Some (set_position latitude longitude u)
            /\ user_latitude (set_position latitude longitude u) = latitude
            /\ user_longitude (set_position latitude longitude u) = longitude
            /\ markers st' = markers st
            /\ (forall s, In s conns ->
                  received conns s
                    [io_emit (positionsUpdate (user_id u) (user_name u) latitude longitude)] =
                  [positionsUpdate (user_id u) (user_name u) latitude longitude])
            /\ (In sender conns ->
                  received conns sender
                    [io_emit (positionsUpdate (user_id u) (user_name u) latitude longitude)] =
                  [positionsUpdate (user_id u) (user_name u) latitude longitude]))
    /\ ((castObjectId (msg_userId msg) = None
         \/ exists oid,
              castObjectId (msg_userId msg) = Some oid
              /\ find_user oid (users st) = None) ->
        run (updatePosition msg) st = (tt, st, [])).
Proof.
  destruct msg as [userId vlat vlng]. simpl. intros Hlat Hlng.
  destruct (typeof_number vlat Hlat) as [latitude ->].
  destruct (typeof_number vlng Hlng) as [longitude ->].
  exists latitude, longitude.
  split; [reflexivity|split; [reflexivity|split]].
  - intros oid u Hcast Hfind.
    exists (mkStore (update_user (set_position latitude longitude u) (users st))
                    (markers st)).
    split; [|split; [|split; [|split; [|split; [|split]]]]]; try reflexivity.
    + autounfold with routes; unfold try_catch, User_findByIdAndUpdate. simpl.
      rewrite Hcast. unfold bind, get_store, put_store, emit, ret. simpl.
      rewrite Hfind. reflexivity.
    + simpl. apply find_user_update with (u := u); [assumption|].
      simpl. now apply find_user_id with (l := users st).
    + intros s Hin. now apply received_io_emit.
    + intros Hin. now apply received_io_emit.
  - intros [Hcast | [oid [Hcast Hfind]]];
      autounfold with routes; unfold try_catch, User_findByIdAndUpdate;
      simpl; rewrite Hcast; unfold bind, get_store, throw, ret; simpl.
    + reflexivity.
    + rewrite Hfind. reflexivity.
Qed.

End Positions.

Section Channel.

Variable number : Type.
Variable zero : number.
Variable parseFloat : string -> option number.
Variable bcrypt_digest : N -> string -> string -> string.
Variable bcrypt_verify : string -> string -> bool.
Variable castObjectId : string -> option ObjectId.
Variable findOne_undefined : list (User number) -> option (User number).

Local Abbreviation step :=
  (step zero parseFloat bcrypt_digest bcrypt_verify castObjectId findOne_undefined).
Local Abbreviation steps :=
  (steps zero parseFloat bcrypt_digest bcrypt_verify castObjectId findOne_undefined).
Local Abbreviation World := (World number).
Local Abbreviation conn := (SocketId * list (event number))%type.

(** *** Inboxes under [push] *)










(** *** What the handlers emit *)







(** [sendAllMarkers] sends the whole collection to its socket and
    changes nothing. *)
Lemma sendAllMarkers_run (s : SocketId) (st : Store number) :
  run (sendAllMarkers s) st = (tt, st, [socket_emit s (allMarkers (markers st))]).
Proof. reflexivity. Qed.


(** *** One step *)

Lemma perform_eq {A} (h : State number -> A * State number) (w : World) :
  perform h w =
    mkWorld (snd (fst (run h (w_store w))))
            (push (snd (run h (w_store w))) (w_conns w))
            (w_fetching w) (w_snapshots w).
Proof.
  unfold perform. destruct (run h (w_store w)) as [[a st'] ems]. reflexivity.
Qed.







Lemma Some_eq {A} (a b : A) : Some a = Some b -> b = a.
Proof. now injection 1. Qed.




(** *** Snapshots *)






End Channel.

(** ** The properties on concrete requests *)

Section Instances.

Import Sample.

Local Abbreviation ok_marker m st :=
  (json (number := number) 200 (json_marker m), st, [io_emit (updatedMarker m)]).

(** [login_answers] on a store holding Alice: an unknown email and a
    wrong password get the same answer, the right password gets Alice's
    id and name, no password gets 500. *)
Lemma login_answers_witness :
  (exists r,
     run (Sample.login (mkLoginBody (Some "bob@example.org") (Some "secret"))) alice_store
       = (r, alice_store, [])
     /\ status r = 400%N
     /\ payload r = json_message "Email ou mot de passe incorrect")
  /\ (exists r,
        run (Sample.login (mkLoginBody (Some "alice@example.org") (Some "wrong")))
            alice_store = (r, alice_store, [])
        /\ status r = 400%N
        /\ payload r = json_message "Email ou mot de passe incorrect")
  /\ (exists r,
        run (Sample.login (mkLoginBody (Some "alice@example.org") (Some "secret")))
            alice_store = (r, alice_store, [])
        /\ status r = 200%N
        /\ payload r = json_user 10%N "Alice")
  /\ (exists r,
        run (Sample.login (mkLoginBody (Some "alice@example.org") None))
            alice_store = (r, alice_store, [])
        /\ status r = 500%N
        /\ payload r = json_error BcryptArguments).
Proof.
  split; [|split; [|split]].
  - destruct (@login_answers number bcrypt_verify findOne_undefined alice_store
                (mkLoginBody (Some "bob@example.org") (Some "secret")))
      as [r [Hrun [H _]]].
    exists r. split; [exact Hrun|]. now apply H.
  - destruct (@login_answers number bcrypt_verify findOne_undefined alice_store
                (mkLoginBody (Some "alice@example.org") (Some "wrong")))
      as [r [Hrun [_ [H _]]]].
    exists r. split; [exact Hrun|]. now apply (H alice).
  - destruct (@login_answers number bcrypt_verify findOne_undefined alice_store
                (mkLoginBody (Some "alice@example.org") (Some "secret")))
      as [r [Hrun [_ [_ [H _]]]]].
    exists r. split; [exact Hrun|]. now apply (H alice).
  - destruct (@login_answers number bcrypt_verify findOne_undefined alice_store
                (mkLoginBody (Some "alice@example.org") None))
      as [r [Hrun [_ [_ [_ H]]]]].
    exists r. split; [exact Hrun|]. now apply (H alice BcryptArguments).
Defined.

(** Two logins without password: for Alice's email the comparison throws
    and the answer is 500; for an email nobody has the answer is 400.
    The first is not the 400 of the claim, and the two tell a stored
    email from an unknown one. *)
Lemma login_comparison_throws_500 :
  select_email findOne_undefined (Some "alice@example.org") (users alice_store) = Some alice
  /\ bcrypt_compare bcrypt_verify None (user_password alice) = Throw BcryptArguments
  /\ run (Sample.login (mkLoginBody (Some "alice@example.org") None)) alice_store
       = (mkResponse 500 (json_error BcryptArguments), alice_store, [])
  /\ run (Sample.login (mkLoginBody (Some "bob@example.org") None)) alice_store
       = (mkResponse 400 (json_message "Email ou mot de passe incorrect"), alice_store, [])
  /\ status (fst (fst (run (Sample.login (mkLoginBody (Some "alice@example.org") None))
                           alice_store))) <> 400%N.
Proof.
  repeat split. discriminate.
Qed.

(** [register_duplicate_email] on Alice's email. *)
Lemma register_duplicate_email_witness :
  In alice (users alice_store)
  /\ exists st',
       run (Sample.register env0
              (mkRegisterBody (Some "Bob") (Some "alice@example.org") (Some "pw")))
           alice_store
         = (json 400 (json_message "Email déjà utilisé"), st', [])
       /\ st' = alice_store
       /\ length (users st') = length (users alice_store).
Proof.
  split; [now left|].
  apply (@register_duplicate_email number zero bcrypt_digest findOne_undefined
           env0 alice_store
           (mkRegisterBody (Some "Bob") (Some "alice@example.org") (Some "pw"))
           "alice@example.org" alice).
  - reflexivity.
  - now left.
  - reflexivity.
Defined.

(** [register_without_password_unknown_email] on a new email. *)
Lemma register_without_password_unknown_email_witness :
  run (Sample.register env0 (mkRegisterBody (Some "Bob") (Some "bob@example.org") None))
      alice_store
    = (json 500 (json_error BcryptArguments), alice_store, []).
Proof.
  apply (@register_without_password_unknown_email number zero bcrypt_digest
           findOne_undefined env0 alice_store
           (mkRegisterBody (Some "Bob") (Some "bob@example.org") None));
    reflexivity.
Defined.

(** A register request without password whose email is Alice's is
    answered 400, not 500: the duplicate check comes before the
    hashing. *)
Lemma register_without_password_known_email :
  reg_password (mkRegisterBody (Some "Bob") (Some "alice@example.org") None) = None
  /\ run (Sample.register env0
            (mkRegisterBody (Some "Bob") (Some "alice@example.org") None))
         alice_store
       = (json 400 (json_message "Email déjà utilisé"), alice_store, [])
  /\ status (fst (fst (run (Sample.register env0
                              (mkRegisterBody (Some "Bob") (Some "alice@example.org") None))
                           alice_store))) <> 500%N.
Proof.
  split; [reflexivity|split; [reflexivity|discriminate]].
Qed.

(** [editMarker_text_fields] on the Eiffel marker: the empty title and
    the color are written, the comment stays. *)
Lemma editMarker_text_fields_witness :
  castObjectId eiffel_id = Some 1%N
  /\ find_marker 1%N (markers eiffel_store) = Some eiffel
  /\ exists marker' st',
       run (Sample.editMarker eiffel_id retitle) eiffel_store = ok_marker marker' st'
       /\ find_marker 1%N (markers st') = Some marker'
       /\ marker_title marker' = ""
       /\ marker_comment marker' = marker_comment eiffel
       /\ marker_color marker' = "#00ff00".
Proof.
  split; [reflexivity|split; [reflexivity|]].
  destruct (@editMarker_text_fields number castObjectId eiffel_store eiffel_id retitle
              1%N eiffel eq_refl eq_refl)
    as [marker' [st' [Hrun [Hfind [Ht [_ [_ [Hc [Hcol _]]]]]]]]].
  exists marker', st'.
  split; [exact Hrun|split; [exact Hfind|split; [|split]]].
  - now apply Ht.
  - now apply Hc.
  - now apply Hcol.
Defined.

(** [editMarker_appends_media] on a marker with three photos and a
    request with two: five photos, the three first; no video file, the
    videos stay. *)
Lemma editMarker_appends_media_witness :
  castObjectId gallery_id = Some 2%N
  /\ find_marker 2%N (markers gallery_store) = Some gallery
  /\ exists marker' st',
       run (Sample.editMarker gallery_id add_two_photos) gallery_store
         = ok_marker marker' st'
       /\ marker_photos marker' =
            (marker_photos gallery ++ ["/uploads/4-d.png"; "/uploads/5-e.png"])%list
       /\ length (marker_photos marker') = 5%nat
       /\ marker_videos marker' = marker_videos gallery.
Proof.
  split; [reflexivity|split; [reflexivity|]].
  destruct (@editMarker_appends_media number castObjectId gallery_store gallery_id
              add_two_photos 2%N gallery eq_refl eq_refl)
    as [marker' [st' [Hrun [_ [Hp [_ [_ [Hv [Hlen _]]]]]]]]].
  exists marker', st'.
  split; [exact Hrun|split; [exact Hp|split]].
  - now rewrite (Hlen _ eq_refl).
  - now apply Hv.
Defined.

(** [editMarker_unknown_id] on a well-formed id that no marker carries,
    and on an id that is not well formed. *)
Lemma editMarker_unknown_id_witness :
  run (Sample.editMarker unknown_id retitle) eiffel_store
    = (json 404 (json_message "Marqueur non trouvé"), eiffel_store, [])
  /\ run (Sample.editMarker "abc" retitle) eiffel_store
    = (json 500 (json_error (CastError "_id")), eiffel_store, []).
Proof.
  split.
  - apply (proj1 (@editMarker_unknown_id number castObjectId eiffel_store unknown_id
                    retitle) 255%N); reflexivity.
  - apply (proj2 (@editMarker_unknown_id number castObjectId eiffel_store "abc" retitle)).
    reflexivity.
Defined.

(** The id [abc] resolves to no stored marker, and the request is
    answered 500, not 404. *)
Lemma editMarker_malformed_id_not_404 :
  (forall m, In m (markers eiffel_store) -> castObjectId "abc" <> Some (marker_id m))
  /\ run (Sample.editMarker "abc" retitle) eiffel_store
       = (json 500 (json_error (CastError "_id")), eiffel_store, [])
  /\ status (fst (fst (run (Sample.editMarker "abc" retitle) eiffel_store))) <> 404%N.
Proof.
  split; [intros m _; discriminate|split; [reflexivity|discriminate]].
Qed.

(** A create-marker request without latitude, and one whose latitude is
    the text [abc], are answered 500: nothing is stored and nothing is
    emitted. *)
Lemma addMarker_unparsable_latitude :
  run (Sample.addMarker env0 no_latitude_form) empty_store
    = (json 500 (json_error (ValidationError "latitude")), empty_store, [])
  /\ run (Sample.addMarker env0 bad_latitude_form) empty_store
    = (json 500 (json_error (ValidationError "latitude")), empty_store, [])
  /\ status (fst (fst (run (Sample.addMarker env0 no_latitude_form) empty_store))) <> 201%N.
Proof.
  split; [reflexivity|split; [reflexivity|discriminate]].
Qed.

(** [updatePosition_not_numeric] on latitude [abc]. *)
Lemma updatePosition_not_numeric_witness :
  typeof (js_string (number := number) "abc") <> "number"
  /\ run (Sample.updatePosition
            (mkPositionMsg alice_id (js_string "abc") (js_number (mkDecimal 235 2))))
         alice_store
       = (tt, alice_store, []).
Proof.
  split; [discriminate|].
  apply (@updatePosition_not_numeric number castObjectId alice_store
           (mkPositionMsg alice_id (js_string "abc") (js_number (mkDecimal 235 2)))).
  left. discriminate.
Defined.

(** [updatePosition_numeric] on Alice's id, sent by socket 7 while 7
    and 8 are connected, and on an id no user carries. *)
Lemma updatePosition_numeric_witness :
  (exists st',
     run (Sample.updatePosition
            (mkPositionMsg alice_id (js_number (mkDecimal 4885 2))
                           (js_number (mkDecimal 235 2))))
         alice_store
       = (tt, st',
          [io_emit (positionsUpdate 10%N "Alice" (mkDecimal 4885 2) (mkDecimal 235 2))])
     /\ find_user 10%N (users st')
          = Some (set_position (mkDecimal 4885 2) (mkDecimal 235 2) alice)
     /\ received [7%N; 8%N] 7%N
          [io_emit (positionsUpdate 10%N "Alice" (mkDecimal 4885 2) (mkDecimal 235 2))]
          = [positionsUpdate 10%N "Alice" (mkDecimal 4885 2) (mkDecimal 235 2)])
  /\ run (Sample.updatePosition
            (mkPositionMsg unknown_id (js_number (mkDecimal 4885 2))
                           (js_number (mkDecimal 235 2))))
         alice_store
       = (tt, alice_store, []).
Proof.
  split.
  - destruct (@updatePosition_numeric number castObjectId alice_store [7%N; 8%N] 7%N
                (mkPositionMsg alice_id (js_number (mkDecimal 4885 2))
                               (js_number (mkDecimal 235 2)))
                eq_refl eq_refl)
      as [lat [lng [Hlat [Hlng [Hfound _]]]]].
    simpl in Hlat, Hlng. injection Hlat as <-. injection Hlng as <-.
    destruct (Hfound 10%N alice eq_refl eq_refl)
      as [st' [Hrun [Hfind [_ [_ [_ [_ Hsender]]]]]]].
    exists st'. split; [exact Hrun|split; [exact Hfind|]].
    apply Hsender. now left.
  - destruct (@updatePosition_numeric number castObjectId alice_store [7%N; 8%N] 7%N
                (mkPositionMsg unknown_id (js_number (mkDecimal 4885 2))
                               (js_number (mkDecimal 235 2)))
                eq_refl eq_refl)
      as [lat [lng [_ [_ [_ Hnone]]]]].
    apply Hnone. right. exists 255%N. split; reflexivity.
Defined.



End Instances.

(** ** Further properties of the routes *)

(** Every way through a handler, innermost test first. *)
Ltac route_cases :=
  autounfold with routes;
  unfold try_catch, server_error, log_only, bind, lift, throw, ret,
    get_store, put_store, emit;
  simpl;
  repeat match goal with
         | |- context [match ?x with _ => _ end] =>
             lazymatch x with
             | context [match _ with _ => _ end] => fail
             | _ => destruct x eqn:?; simpl
             end
         end.

(** The cast of [createdBy], past the abbreviations of a section. *)
Ltac unfold_createdBy := unfold cast_createdBy.

Section AccountsMore.

Variable number : Type.
Variable zero : number.
Variable bcrypt_digest : N -> string -> string -> string.
Variable bcrypt_verify : string -> string -> bool.
Variable findOne_undefined : list (User number) -> option (User number).

Local Abbreviation select_email := (select_email findOne_undefined).
Local Abbreviation login := (login bcrypt_verify findOne_undefined).
Local Abbreviation register := (register zero bcrypt_digest findOne_undefined).

Lemma find_none_existsb {A : Type} (f : A -> bool) (l : list A) :
  find f l = None -> existsb f l = false.
Proof.
  induction l as [|x tl IH]; simpl; [reflexivity|].
  destruct (f x); [discriminate|exact IH].
Qed.

Lemma find_app_none {A : Type} (f : A -> bool) (l : list A) (x : A) :
  find f l = None -> f x = true -> find f (l ++ [x]) = Some x.
Proof.
  induction l as [|y tl IH]; simpl; intros Hn Hx.
  - now rewrite Hx.
  - destruct (f y); [discriminate|now apply IH].
Qed.

(** What [POST /register] does when nothing stops it. *)
Lemma register_run_created (env : Env) (st : Store number) (req : RegisterBody)
    (n e pw : string) :
  reg_name req = Some n -> n <> "" ->
  reg_email req = Some e -> e <> "" ->
  reg_password req = Some pw ->
  bcrypt_digest 10 (salt env) pw <> "" ->
  select_email (Some e) (users st) = None ->
  run (register env req) st =
    (json 201 (json_user (new_id env) n),
     mkStore (users st ++ [mkUser (new_id env) n e (bcrypt_digest 10 (salt env) pw)
                                  zero zero (now env)])
             (markers st),
     []).
Proof.
  intros Hn Hn0 He He0 Hpw Hd Hsel.
  autounfold with routes.
  unfold try_catch, User_findOne, User_create, required_string, bcrypt_hash.
  unfold bind, lift, get_store, put_store, throw, ret.
  simpl. rewrite Hn, He, Hpw, Hsel.
  apply String.eqb_neq in Hn0, He0, Hd. rewrite Hn0, He0, Hd. simpl.
  simpl in Hsel. rewrite (find_none_existsb _ _ Hsel). reflexivity.
Qed.

(** X1.  A register request with a name, a new email and a password is
    answered 201 with the id and name of the new user; the user is added
    last, with the digest of the password and not the password, at
    position 0, 0; nothing is emitted. *)
Theorem register_created (env : Env) (st : Store number) (req : RegisterBody)
    (n e pw : string) :
  reg_name req = Some n -> n <> "" ->
  reg_email req = Some e -> e <> "" ->
  reg_password req = Some pw ->
  bcrypt_digest 10 (salt env) pw <> "" ->
  select_email (Some e) (users st) = None ->
  exists u,
    run (register env req) st =
      (json 201 (json_user (user_id u) (user_name u)),
       mkStore (users st ++ [u]) (markers st), [])
    /\ user_id u = new_id env
    /\ user_name u = n
    /\ user_email u = e
    /\ user_password u = bcrypt_digest 10 (salt env) pw
    /\ user_latitude u = zero
    /\ user_longitude u = zero
    /\ user_createdAt u = now env.
Proof.
  intros Hn Hn0 He He0 Hpw Hd Hsel.
  exists (mkUser (new_id env) n e (bcrypt_digest 10 (salt env) pw) zero zero (now env)).
  split; [now apply register_run_created|].
  repeat split.
Qed.

(** X2.  A register request without a name, or with an empty one, for a
    new email and with a password, is answered 500 by the validation of
    the schema; no user is created. *)
Theorem register_without_name (env : Env) (st : Store number) (req : RegisterBody)
    (pw : string) :
  reg_name req = None \/ reg_name req = Some "" ->
  reg_password req = Some pw ->
  select_email (reg_email req) (users st) = None ->
  run (register env req) st = (json 500 (json_error (ValidationError "name")), st, []).
Proof.
  intros Hn Hpw Hsel.
  autounfold with routes.
  unfold try_catch, User_findOne, User_create, required_string, bcrypt_hash.
  unfold bind, lift, get_store, put_store, throw, ret.
  simpl. rewrite Hsel, Hpw. simpl.
  destruct Hn as [-> | ->]; reflexivity.
Qed.

(** X3.  [POST /login] only reads: whatever the request, the collections
    are left as they were, nothing is emitted, and the status is 200, 400
    or 500. *)
Theorem login_read_only (st : Store number) (req : LoginBody) :
  exists r,
    run (login req) st = (r, st, [])
    /\ (status r = 200%N \/ status r = 400%N \/ status r = 500%N).
Proof.
  rewrite login_run.
  destruct (select_email (login_email req) (users st)) as [u|].
  - destruct (bcrypt_compare bcrypt_verify (login_password req) (user_password u))
      as [[|]|e]; eexists; (split; [reflexivity|]); simpl; auto.
  - eexists. split; [reflexivity|]. simpl. auto.
Qed.

(** X4.  A login for a stored email that carries no password is answered
    500, the comparison throwing, and not with the invalid-credentials
    message. *)
Theorem login_without_password (st : Store number) (req : LoginBody) (u : User number) :
  select_email (login_email req) (users st) = Some u ->
  login_password req = None ->
  run (login req) st = (json 500 (json_error BcryptArguments), st, []).
Proof.
  intros Hsel Hpw. rewrite login_run, Hsel, Hpw. reflexivity.
Qed.

(** X5.  Register, then login.  Provided bcrypt accepts a password
    against its own digest, the account just registered logs in with the
    same email and password and gets the id and name the registration
    returned; a password bcrypt rejects against that digest gets 400. *)
Theorem register_then_login (env : Env) (st : Store number) (req : RegisterBody)
    (n e pw : string) :
  reg_name req = Some n -> n <> "" ->
  reg_email req = Some e -> e <> "" ->
  reg_password req = Some pw ->
  bcrypt_digest 10 (salt env) pw <> "" ->
  select_email (Some e) (users st) = None ->
  bcrypt_verify pw (bcrypt_digest 10 (salt env) pw) = true ->
  exists st',
    run (register env req) st = (json 201 (json_user (new_id env) n), st', [])
    /\ run (login (mkLoginBody (Some e) (Some pw))) st' =
         (json 200 (json_user (new_id env) n), st', [])
    /\ forall pw',
         bcrypt_verify pw' (bcrypt_digest 10 (salt env) pw) = false ->
         run (login (mkLoginBody (Some e) (Some pw'))) st' =
           (json 400 (json_message "Email ou mot de passe incorrect"), st', []).
Proof.
  intros Hn Hn0 He He0 Hpw Hd Hsel Hok.
  eexists. split; [now apply register_run_created with (e := e) (pw := pw)|].
  assert (Hfound :
    select_email (Some e)
      (users st ++ [mkUser (new_id env) n e (bcrypt_digest 10 (salt env) pw)
                           zero zero (now env)]) =
    Some (mkUser (new_id env) n e (bcrypt_digest 10 (salt env) pw) zero zero (now env))).
  { simpl. apply find_app_none; [exact Hsel|]. simpl. apply String.eqb_refl. }
  split.
  - rewrite login_run. simpl login_email. simpl users. rewrite Hfound. simpl.
    now rewrite Hok.
  - intros pw' Hbad.
    rewrite login_run. simpl login_email. simpl users. rewrite Hfound. simpl.
    now rewrite Hbad.
Qed.

(** X6.  A register request that is not answered 201 leaves the
    collections as they were; one that is answered 201 has added exactly
    one user, the one the answer names.  Either way nothing is emitted,
    and the status is 201, 400 or 500. *)
Theorem register_all_or_nothing (env : Env) (st : Store number) (req : RegisterBody) :
  exists r st',
    run (register env req) st = (r, st', [])
    /\ (status r <> 201%N -> st' = st)
    /\ (status r = 201%N ->
        exists u, st' = mkStore (users st ++ [u]) (markers st)
                  /\ payload r = json_user (user_id u) (user_name u))
    /\ (status r = 201%N \/ status r = 400%N \/ status r = 500%N).
Proof.
  autounfold with routes.
  unfold User_findOne, User_create, required_string, bcrypt_hash.
  route_cases;
    (eexists; eexists; split; [reflexivity|]);
    simpl; (split; [|split]);
    try (intros; reflexivity); try (intros; discriminate); try congruence; auto.
  intros _. eexists. split; reflexivity.
Qed.

End AccountsMore.

Section MarkersMore.

Variable number : Type.
Variable parseFloat : string -> option number.
Variable castObjectId : string -> option ObjectId.

Local Abbreviation addMarker := (addMarker parseFloat castObjectId).
Local Abbreviation editMarker := (editMarker (number := number) castObjectId).
Local Abbreviation parseFloat_field := (parseFloat_field parseFloat).
Local Abbreviation cast_createdBy := (cast_createdBy castObjectId).

(** [POST /markers] when the schema accepts the document. *)
Lemma addMarker_run_created (env : Env) (st : Store number) (req : MarkerForm)
    (lat lng : number) (creator : option ObjectId) :
  parseFloat_field (form_latitude req) = Some lat ->
  parseFloat_field (form_longitude req) = Some lng ->
  cast_createdBy (form_userId req) = Ok creator ->
  run (addMarker env req) st =
    (json 201 (json_marker
       (mkMarker (new_id env) lat lng
                 (with_default "" (form_title req)) (with_default "" (form_comment req))
                 (with_default "#ff0000" (form_color req))
                 (paths_or_empty (files_photos (form_files req)))
                 (paths_or_empty (files_videos (form_files req)))
                 creator (now env))),
     mkStore (users st)
       (markers st ++
        [mkMarker (new_id env) lat lng
                  (with_default "" (form_title req)) (with_default "" (form_comment req))
                  (with_default "#ff0000" (form_color req))
                  (paths_or_empty (files_photos (form_files req)))
                  (paths_or_empty (files_videos (form_files req)))
                  creator (now env)]),
     [io_emit (newMarker
       (mkMarker (new_id env) lat lng
                 (with_default "" (form_title req)) (with_default "" (form_comment req))
                 (with_default "#ff0000" (form_color req))
                 (paths_or_empty (files_photos (form_files req)))
                 (paths_or_empty (files_videos (form_files req)))
                 creator (now env)))]).
Proof.
  intros Hlat Hlng Hby.
  autounfold with routes. unfold try_catch, Marker_create.
  unfold bind, lift, get_store, put_store, emit, ret.
  rewrite Hlat, Hlng, Hby. reflexivity.
Qed.

(** X7.  The marker [POST /markers] creates: a title, comment or color
    the form lacks is stored as the empty text, the empty text and
    [#ff0000]; the photos and the videos are the [/uploads/] paths of the
    files sent, in the order sent, and empty when none is sent; the
    creation time is the clock. *)
Theorem addMarker_document (env : Env) (st : Store number) (req : MarkerForm)
    (lat lng : number) (creator : option ObjectId) :
  parseFloat_field (form_latitude req) = Some lat ->
  parseFloat_field (form_longitude req) = Some lng ->
  cast_createdBy (form_userId req) = Ok creator ->
  exists m,
    run (addMarker env req) st =
      (json 201 (json_marker m), mkStore (users st) (markers st ++ [m]),
       [io_emit (newMarker m)])
    /\ (form_title req = None -> marker_title m = "")
    /\ (form_comment req = None -> marker_comment m = "")
    /\ (form_color req = None -> marker_color m = "#ff0000")
    /\ (forall t, form_title req = Some t -> marker_title m = t)
    /\ (forall t, form_comment req = Some t -> marker_comment m = t)
    /\ (forall t, form_color req = Some t -> marker_color m = t)
    /\ (forall fs, files_photos (form_files req) = Some fs ->
          marker_photos m = map (fun f => "/uploads/" ++ filename f) fs)
    /\ (forall fs, files_videos (form_files req) = Some fs ->
          marker_videos m = map (fun f => "/uploads/" ++ filename f) fs)
    /\ (files_photos (form_files req) = None -> marker_photos m = [])
    /\ (files_videos (form_files req) = None -> marker_videos m = [])
    /\ marker_createdAt m = now env.
Proof.
  intros Hlat Hlng Hby.
  eexists. split; [apply addMarker_run_created; eassumption|].
  simpl. repeat split; intros; simpl;
    match goal with H : _ = _ |- _ => rewrite H; reflexivity end.
Qed.

(** X8.  The creator of a new marker: a form without [userId], or with
    an empty one, stores no creator; a [userId] that is not the text of
    an ObjectId makes the creation fail with 500, nothing stored and
    nothing emitted. *)
Theorem addMarker_creator (env : Env) (st : Store number) (req : MarkerForm)
    (lat lng : number) :
  parseFloat_field (form_latitude req) = Some lat ->
  parseFloat_field (form_longitude req) = Some lng ->
  (form_userId req = None \/ form_userId req = Some "" ->
   exists m,
     run (addMarker env req) st =
       (json 201 (json_marker m), mkStore (users st) (markers st ++ [m]),
        [io_emit (newMarker m)])
     /\ marker_createdBy m = None)
  /\ (forall s oid,
        form_userId req = Some s -> s <> "" -> castObjectId s = Some oid ->
        exists m,
          run (addMarker env req) st =
            (json 201 (json_marker m), mkStore (users st) (markers st ++ [m]),
             [io_emit (newMarker m)])
          /\ marker_createdBy m = Some oid)
  /\ (forall s,
        form_userId req = Some s -> s <> "" -> castObjectId s = None ->
        run (addMarker env req) st =
          (json 500 (json_error (ValidationError "createdBy")), st, [])).
Proof.
  intros Hlat Hlng. split; [|split].
  - intros Hu. eexists. split; [apply addMarker_run_created; try eassumption|reflexivity].
    destruct Hu as [-> | ->]; reflexivity.
  - intros s oid Hs Hne Hcast. eexists.
    split; [apply addMarker_run_created; try eassumption|reflexivity].
    unfold_createdBy. rewrite Hs.
    apply String.eqb_neq in Hne. now rewrite Hne, Hcast.
  - intros s Hs Hne Hcast.
    autounfold with routes. unfold try_catch, Marker_create.
    unfold bind, lift, get_store, put_store, emit, ret.
    rewrite Hlat, Hlng. unfold_createdBy. rewrite Hs.
    apply String.eqb_neq in Hne. now rewrite Hne, Hcast.
Qed.

(** X9.  A create-marker request that is not answered 201 leaves the
    collections as they were and emits nothing; one that is answered 201
    has added exactly one marker, last, and emitted it once as
    [newMarker].  The status is 201 or 500. *)
Theorem addMarker_all_or_nothing (env : Env) (st : Store number) (req : MarkerForm) :
  exists r st' ems,
    run (addMarker env req) st = (r, st', ems)
    /\ (status r <> 201%N -> st' = st /\ ems = [])
    /\ (status r = 201%N ->
        exists m, payload r = json_marker m
                  /\ st' = mkStore (users st) (markers st ++ [m])
                  /\ ems = [io_emit (newMarker m)])
    /\ (status r = 201%N \/ status r = 500%N).
Proof.
  autounfold with routes. unfold Marker_create, cast_number. unfold_createdBy.
  route_cases;
    (eexists; eexists; eexists; split; [reflexivity|]);
    simpl; (split; [|split]);
    try (intros; split; reflexivity); try (intros; discriminate); try congruence; auto.
  all: intros _; eexists; repeat split.
Qed.

Lemma update_marker_ids (m' : Marker number) (l : list (Marker number)) :
  map (fun m => marker_id m) (update_marker m' l) = map (fun m => marker_id m) l.
Proof.
  induction l as [|x tl IH]; [reflexivity|].
  simpl. destruct (marker_id x =? marker_id m')%N eqn:Hx; simpl.
  - apply N.eqb_eq in Hx. now rewrite Hx.
  - now rewrite IH.
Qed.

Lemma find_marker_update_other (oid : ObjectId) (m' : Marker number)
    (l : list (Marker number)) :
  oid <> marker_id m' ->
  find_marker oid (update_marker m' l) = find_marker oid l.
Proof.
  intros Hne. induction l as [|x tl IH]; [reflexivity|].
  simpl. destruct (marker_id x =? marker_id m')%N eqn:Hx; simpl.
  - apply N.eqb_eq in Hx.
    assert (H1 : (marker_id m' =? oid)%N = false) by (apply N.eqb_neq; congruence).
    assert (H2 : (marker_id x =? oid)%N = false) by (apply N.eqb_neq; congruence).
    now rewrite H1, H2.
  - destruct (marker_id x =? oid)%N; [reflexivity|exact IH].
Qed.

(** Saving a document as fetched changes nothing. *)
Lemma update_marker_same (oid : ObjectId) (m : Marker number) (l : list (Marker number)) :
  find_marker oid l = Some m -> update_marker m l = l.
Proof.
  induction l as [|x tl IH]; [discriminate|].
  simpl. destruct (marker_id x =? oid)%N eqn:Hx.
  - intros Hf. injection Hf as <-. now rewrite N.eqb_refl.
  - intros Hf. pose proof (find_marker_id _ _ Hf) as Hid.
    rewrite Hid, Hx. now rewrite IH.
Qed.

(** X10.  What an edit leaves alone: the edited marker keeps its id,
    coordinates, creator and creation time; the users, the number of
    markers, their ids in order, and what every other id resolves to are
    as before. *)
Theorem editMarker_frame (st : Store number) (id : string) (req : EditForm)
    (oid : ObjectId) (marker : Marker number) :
  castObjectId id = Some oid ->
  find_marker oid (markers st) = Some marker ->
  exists marker' st',
    run (editMarker id req) st =
      (json 200 (json_marker marker'), st', [io_emit (updatedMarker marker')])
    /\ marker_id marker' = marker_id marker
    /\ marker_latitude marker' = marker_latitude marker
    /\ marker_longitude marker' = marker_longitude marker
    /\ marker_createdBy marker' = marker_createdBy marker
    /\ marker_createdAt marker' = marker_createdAt marker
    /\ users st' = users st
    /\ length (markers st') = length (markers st)
    /\ map (fun m => marker_id m) (markers st') = map (fun m => marker_id m) (markers st)
    /\ (forall oid', oid' <> oid ->
          find_marker oid' (markers st') = find_marker oid' (markers st)).
Proof.
  intros Hcast Hfind.
  exists (apply_edit req marker).
  exists (mkStore (users st) (update_marker (apply_edit req marker) (markers st))).
  split; [now apply editMarker_found with (oid := oid)|].
  pose proof (find_marker_id _ _ Hfind) as Hid.
  repeat split; simpl.
  - rewrite <- (length_map (fun m => marker_id m)), update_marker_ids.
    apply length_map.
  - apply update_marker_ids.
  - intros oid' Hne. apply find_marker_update_other. simpl. congruence.
Qed.

(** X11.  An edit that sends no field and no file stores nothing new:
    the collections are exactly as they were; it is still answered 200
    with the marker and still emits it as [updatedMarker]. *)
Theorem editMarker_nothing_sent (st : Store number) (id : string)
    (oid : ObjectId) (marker : Marker number) :
  castObjectId id = Some oid ->
  find_marker oid (markers st) = Some marker ->
  run (editMarker id (mkEditForm None None None (mkFiles None None))) st =
    (json 200 (json_marker marker), st, [io_emit (updatedMarker marker)]).
Proof.
  intros Hcast Hfind.
  rewrite (@editMarker_found number castObjectId st id
             (mkEditForm None None None (mkFiles None None)) oid marker Hcast Hfind).
  assert (Hsame : apply_edit (mkEditForm None None None (mkFiles None None)) marker = marker)
    by (destruct marker; reflexivity).
  rewrite Hsame, (update_marker_same _ _ Hfind).
  destruct st; reflexivity.
Qed.

(** X12.  Two edits of one marker compose: the photos and videos of the
    second request follow those of the first, which follow the ones the
    marker had; a text field is that of the second request if it sends
    the field, else that of the first if it does, else the stored one. *)
Theorem editMarker_twice (st : Store number) (id : string) (req1 req2 : EditForm)
    (oid : ObjectId) (marker : Marker number) :
  castObjectId id = Some oid ->
  find_marker oid (markers st) = Some marker ->
  exists m1 st1 m2 st2,
    run (editMarker id req1) st =
      (json 200 (json_marker m1), st1, [io_emit (updatedMarker m1)])
    /\ run (editMarker id req2) st1 =
         (json 200 (json_marker m2), st2, [io_emit (updatedMarker m2)])
    /\ find_marker oid (markers st2) = Some m2
    /\ marker_photos m2 =
         (marker_photos marker ++ paths_or_empty (files_photos (edit_files req1))
                               ++ paths_or_empty (files_photos (edit_files req2)))%list
    /\ marker_videos m2 =
         (marker_videos marker ++ paths_or_empty (files_videos (edit_files req1))
                               ++ paths_or_empty (files_videos (edit_files req2)))%list
    /\ marker_title m2 =
         match edit_title req2, edit_title req1 with
         | Some t, _ => t
         | None, Some t => t
         | None, None => marker_title marker
         end
    /\ marker_comment m2 =
         match edit_comment req2, edit_comment req1 with
         | Some t, _ => t
         | None, Some t => t
         | None, None => marker_comment marker
         end
    /\ marker_color m2 =
         match edit_color req2, edit_color req1 with
         | Some t, _ => t
         | None, Some t => t
         | None, None => marker_color marker
         end.
Proof.
  intros Hcast Hfind.
  pose proof (find_marker_id _ _ Hfind) as Hid.
  assert (Hfind1 :
    find_marker oid (update_marker (apply_edit req1 marker) (markers st)) =
    Some (apply_edit req1 marker))
    by (apply find_marker_update with (m := marker); assumption).
  exists (apply_edit req1 marker).
  exists (mkStore (users st) (update_marker (apply_edit req1 marker) (markers st))).
  exists (apply_edit req2 (apply_edit req1 marker)).
  eexists.
  split; [now apply editMarker_found with (oid := oid)|].
  split; [now apply editMarker_found with (oid := oid)|].
  split.
  { simpl. apply find_marker_update with (m := apply_edit req1 marker);
      [exact Hfind1|exact Hid]. }
  simpl. unfold append_uploads, paths_or_empty, assign_if_defined.
  destruct (files_photos (edit_files req1)), (files_photos (edit_files req2)),
    (files_videos (edit_files req1)), (files_videos (edit_files req2)),
    (edit_title req1), (edit_title req2), (edit_comment req1), (edit_comment req2),
    (edit_color req1), (edit_color req2);
    rewrite ?app_nil_r, <- ?app_assoc; repeat split.
Qed.

(** X13.  Create, then edit.  When no stored marker carries the id drawn
    for the new one, an edit addressed to the text of that id finds the
    marker just created and edits it. *)
Theorem addMarker_then_editMarker (env : Env) (st : Store number) (req : MarkerForm)
    (id : string) (edit : EditForm) (lat lng : number) (creator : option ObjectId) :
  parseFloat_field (form_latitude req) = Some lat ->
  parseFloat_field (form_longitude req) = Some lng ->
  cast_createdBy (form_userId req) = Ok creator ->
  find_marker (new_id env) (markers st) = None ->
  castObjectId id = Some (new_id env) ->
  exists m st',
    run (addMarker env req) st =
      (json 201 (json_marker m), st', [io_emit (newMarker m)])
    /\ find_marker (new_id env) (markers st') = Some m
    /\ length (markers st') = S (length (markers st))
    /\ exists st'',
         run (editMarker id edit) st' =
           (json 200 (json_marker (apply_edit edit m)), st'',
            [io_emit (updatedMarker (apply_edit edit m))])
         /\ find_marker (new_id env) (markers st'') = Some (apply_edit edit m)
         /\ length (markers st'') = S (length (markers st)).
Proof.
  intros Hlat Hlng Hby Hfresh Hcast.
  eexists. eexists.
  split; [apply addMarker_run_created; eassumption|].
  match goal with
  | |- find_marker _ (markers (mkStore _ (_ ++ [?m])) ) = _ /\ _ =>
      assert (Hnew : find_marker (new_id env) (markers st ++ [m]) = Some m)
  end.
  { apply find_app_none; [exact Hfresh|]. simpl. apply N.eqb_refl. }
  split; [exact Hnew|].
  split; [simpl; rewrite length_app; simpl; apply Nat.add_1_r|].
  eexists.
  split; [apply editMarker_found with (oid := new_id env); [exact Hcast|exact Hnew]|].
  split.
  - simpl. apply find_marker_update with (1 := Hnew). reflexivity.
  - simpl.
    rewrite <- (length_map (fun m => marker_id m)), update_marker_ids, length_map.
    rewrite length_app. simpl. apply Nat.add_1_r.
Qed.

(** X14.  An edit that is not answered 200 leaves the collections as
    they were and emits nothing; one that is answered 200 emits the
    marker it answers with, once, as [updatedMarker].  The status is 200,
    404 or 500. *)
Theorem editMarker_all_or_nothing (st : Store number) (id : string) (req : EditForm) :
  exists r st' ems,
    run (editMarker id req) st = (r, st', ems)
    /\ (status r <> 200%N -> st' = st /\ ems = [])
    /\ (status r = 200%N ->
        exists m, payload r = json_marker m /\ ems = [io_emit (updatedMarker m)])
    /\ (status r = 200%N \/ status r = 404%N \/ status r = 500%N).
Proof.
  autounfold with routes. unfold Marker_findById, Marker_save.
  route_cases;
    (eexists; eexists; eexists; split; [reflexivity|]);
    simpl; (split; [|split]);
    try (intros; split; reflexivity); try (intros; discriminate); try congruence; auto.
  all: intros _; eexists; repeat split.
Qed.

End MarkersMore.

Section PositionsMore.

Variable number : Type.
Variable castObjectId : string -> option ObjectId.

Local Abbreviation updatePosition := (updatePosition (number := number) castObjectId).

(** [updatePosition] on numbers and an id that resolves. *)
Lemma updatePosition_run_found (st : Store number) (userId : string)
    (latitude longitude : number) (oid : ObjectId) (u : User number) :
  castObjectId userId = Some oid ->
  find_user oid (users st) = Some u ->
  run (updatePosition (mkPositionMsg userId (js_number latitude) (js_number longitude))) st =
    (tt,
     mkStore (update_user (set_position latitude longitude u) (users st)) (markers st),
     [io_emit (positionsUpdate (user_id u) (user_name u) latitude longitude)]).
Proof.
  intros Hcast Hfind.
  autounfold with routes; unfold try_catch, User_findByIdAndUpdate. simpl.
  rewrite Hcast. unfold bind, get_store, put_store, emit, ret. simpl.
  rewrite Hfind. reflexivity.
Qed.

Lemma update_user_keys (u' : User number) (l : list (User number)) :
  map (fun u => user_id u) (update_user u' l) = map (fun u => user_id u) l.
Proof.
  induction l as [|x tl IH]; [reflexivity|].
  simpl. destruct (user_id x =? user_id u')%N eqn:Hx; simpl.
  - apply N.eqb_eq in Hx. now rewrite Hx.
  - now rewrite IH.
Qed.

Lemma update_user_emails (oid : ObjectId) (u u' : User number) (l : list (User number)) :
  find_user oid l = Some u -> user_id u' = oid -> user_email u' = user_email u ->
  map (fun u => user_email u) (update_user u' l) = map (fun u => user_email u) l.
Proof.
  intros Hf Hid He. induction l as [|x tl IH]; [reflexivity|].
  simpl in *. rewrite Hid.
  destruct (user_id x =? oid)%N eqn:Hx; simpl.
  - injection Hf as ->. now rewrite He.
  - now rewrite IH.
Qed.

Lemma find_user_update_other (oid : ObjectId) (u' : User number) (l : list (User number)) :
  oid <> user_id u' ->
  find_user oid (update_user u' l) = find_user oid l.
Proof.
  intros Hne. induction l as [|x tl IH]; [reflexivity|].
  simpl. destruct (user_id x =? user_id u')%N eqn:Hx; simpl.
  - apply N.eqb_eq in Hx.
    assert (H1 : (user_id u' =? oid)%N = false) by (apply N.eqb_neq; congruence).
    assert (H2 : (user_id x =? oid)%N = false) by (apply N.eqb_neq; congruence).
    now rewrite H1, H2.
  - destruct (user_id x =? oid)%N; [reflexivity|exact IH].
Qed.

(** A second write to the same id replaces the first. *)
Lemma update_user_twice (u1 u2 : User number) (l : list (User number)) :
  user_id u1 = user_id u2 ->
  update_user u2 (update_user u1 l) = update_user u2 l.
Proof.
  intros Hid. induction l as [|x tl IH]; [reflexivity|].
  simpl. rewrite Hid. destruct (user_id x =? user_id u2)%N eqn:Hx; simpl.
  - now rewrite Hid, N.eqb_refl.
  - now rewrite Hx, IH.
Qed.

(** X15.  What a position update leaves alone: the user keeps id, name,
    email, password digest and creation time; the markers, the number of
    users, their ids and emails in order, and what every other id
    resolves to are as before. *)
Theorem updatePosition_frame (st : Store number) (userId : string)
    (latitude longitude : number) (oid : ObjectId) (u : User number) :
  castObjectId userId = Some oid ->
  find_user oid (users st) = Some u ->
  exists u' st' ems,
    run (updatePosition (mkPositionMsg userId (js_number latitude) (js_number longitude)))
        st = (tt, st', ems)
    /\ find_user oid (users st') = Some u'
    /\ user_id u' = user_id u
    /\ user_name u' = user_name u
    /\ user_email u' = user_email u
    /\ user_password u' = user_password u
    /\ user_createdAt u' = user_createdAt u
    /\ markers st' = markers st
    /\ length (users st') = length (users st)
    /\ map (fun u => user_id u) (users st') = map (fun u => user_id u) (users st)
    /\ map (fun u => user_email u) (users st') = map (fun u => user_email u) (users st)
    /\ (forall oid', oid' <> oid ->
          find_user oid' (users st') = find_user oid' (users st)).
Proof.
  intros Hcast Hfind.
  pose proof (find_user_id _ _ Hfind) as Hid.
  exists (set_position latitude longitude u). eexists. eexists.
  split; [apply updatePosition_run_found with (oid := oid) (u := u); assumption|].
  split.
  { simpl. apply find_user_update with (u := u); assumption. }
  repeat split; simpl.
  - rewrite <- (length_map (fun u => user_id u)), update_user_keys. apply length_map.
  - apply update_user_keys.
  - apply update_user_emails with (oid := oid) (u := u); auto.
  - intros oid' Hne. apply find_user_update_other. simpl. congruence.
Qed.

(** X16.  The last position wins: after two updates for one user, the
    collections are what the second update alone would have left, and
    the second event carries the second position. *)
Theorem updatePosition_twice (st : Store number) (userId : string)
    (lat1 lng1 lat2 lng2 : number) (oid : ObjectId) (u : User number) :
  castObjectId userId = Some oid ->
  find_user oid (users st) = Some u ->
  exists st1 st2 ems1,
    run (updatePosition (mkPositionMsg userId (js_number lat1) (js_number lng1))) st =
      (tt, st1, ems1)
    /\ run (updatePosition (mkPositionMsg userId (js_number lat2) (js_number lng2))) st1 =
         (tt, st2, [io_emit (positionsUpdate (user_id u) (user_name u) lat2 lng2)])
    /\ run (updatePosition (mkPositionMsg userId (js_number lat2) (js_number lng2))) st =
         (tt, st2, [io_emit (positionsUpdate (user_id u) (user_name u) lat2 lng2)])
    /\ find_user oid (users st2) = Some (set_position lat2 lng2 u).
Proof.
  intros Hcast Hfind.
  pose proof (find_user_id _ _ Hfind) as Hid.
  assert (Hfind1 :
    find_user oid (update_user (set_position lat1 lng1 u) (users st)) =
    Some (set_position lat1 lng1 u))
    by (apply find_user_update with (u := u); assumption).
  eexists. exists (mkStore (update_user (set_position lat2 lng2 u) (users st)) (markers st)).
  eexists.
  split; [apply updatePosition_run_found with (oid := oid) (u := u); assumption|].
  split.
  { rewrite (@updatePosition_run_found
               (mkStore (update_user (set_position lat1 lng1 u) (users st)) (markers st))
               userId lat2 lng2 oid (set_position lat1 lng1 u) Hcast Hfind1).
    simpl. now rewrite update_user_twice. }
  split; [apply updatePosition_run_found with (oid := oid) (u := u); assumption|].
  simpl. apply find_user_update with (u := u); assumption.
Qed.

(** X17.  [GET /users] after a position update: the answer is 200 with
    one entry per stored user, in the order of the collection; the entry
    of the updated user shows the new position, under the same id, name
    and email; nothing is stored or emitted by the listing. *)
Theorem updatePosition_then_listUsers (st : Store number) (userId : string)
    (latitude longitude : number) (oid : ObjectId) (u : User number) :
  castObjectId userId = Some oid ->
  find_user oid (users st) = Some u ->
  exists st' ems views,
    run (updatePosition (mkPositionMsg userId (js_number latitude) (js_number longitude)))
        st = (tt, st', ems)
    /\ run (listUsers (number := number)) st' = ((200%N, json_users views), st', [])
    /\ map (fun v => view_id v) views = map (fun u => user_id u) (users st)
    /\ In (mkUserView (user_id u) (user_name u) (user_email u)
                      latitude longitude (user_createdAt u)) views.
Proof.
  intros Hcast Hfind.
  pose proof (find_user_id _ _ Hfind) as Hid.
  eexists. eexists. eexists.
  split; [apply updatePosition_run_found with (oid := oid) (u := u); assumption|].
  split; [reflexivity|]. simpl. split.
  - rewrite map_map. simpl. apply update_user_keys.
  - assert (Hf : find_user oid (update_user (set_position latitude longitude u) (users st))
                 = Some (set_position latitude longitude u))
      by (apply find_user_update with (u := u); assumption).
    apply find_some in Hf. destruct Hf as [Hin _].
    apply (in_map (project_user (number := number))) in Hin. exact Hin.
Qed.

End PositionsMore.

(** ** Properties of the uploads *)

Lemma digits_dashless (d : Decimal.uint) :
  ~ In "-"%char (list_ascii_of_string (NilEmpty.string_of_uint d)).
Proof.
  induction d; simpl; intros H; try (destruct H as [H|H]; [discriminate|]); auto.
Qed.

(** A text without dash, a dash and a rest: the three parts are read
    back in one way only. *)
Lemma split_at_dash (a b n1 n2 : string) :
  ~ In "-"%char (list_ascii_of_string a) ->
  ~ In "-"%char (list_ascii_of_string b) ->
  a ++ "-" ++ n1 = b ++ "-" ++ n2 -> a = b /\ n1 = n2.
Proof.
  revert b. induction a as [|c a IH]; intros [|c' b] Ha Hb Heq; simpl in *.
  - injection Heq as ->. now split.
  - injection Heq as <- _. exfalso. apply Hb. now left.
  - injection Heq as -> _. exfalso. apply Ha. now left.
  - injection Heq as -> Heq.
    destruct (IH b) as [-> ->]; auto.
Qed.

Lemma digits_injective (c1 c2 : N) :
  NilEmpty.string_of_uint (N.to_uint c1) = NilEmpty.string_of_uint (N.to_uint c2) ->
  c1 = c2.
Proof.
  intros H.
  assert (Hd : Some (N.to_uint c1) = Some (N.to_uint c2))
    by (rewrite <- !NilEmpty.usu; now rewrite H).
  injection Hd as Hd.
  rewrite <- (DecimalN.Unsigned.of_to c1), <- (DecimalN.Unsigned.of_to c2).
  now rewrite Hd.
Qed.

(** X18.  The name multer's storage gives a file determines both the
    clock and the original name: two uploads get the same stored name
    exactly when they have the same original name and are named at the
    same millisecond. *)
Theorem storage_filename_injective (c1 c2 : N) (n1 n2 : string) :
  storage_filename c1 n1 = storage_filename c2 n2 <-> c1 = c2 /\ n1 = n2.
Proof.
  split.
  - unfold storage_filename. intros H.
    apply split_at_dash in H; try apply digits_dashless.
    destruct H as [Hc Hn]. split; [now apply digits_injective|exact Hn].
  - intros [-> ->]. reflexivity.
Qed.

(** What [take_parts] hands over, and when. *)
Lemma take_parts_some (parts : list FilePart) :
  forall (lp lv : nat) (ps vs : list File),
    take_parts lp lv parts = Some (ps, vs) ->
    ps = map store_part (files_under "photos" parts)
    /\ vs = map store_part (files_under "videos" parts)
    /\ (length ps <= lp)%nat
    /\ (length vs <= lv)%nat
    /\ Forall declared parts.
Proof.
  unfold files_under, declared.
  induction parts as [|p tl IH]; intros lp lv ps vs H; simpl in H.
  - injection H as <- <-. simpl. repeat split; auto using Nat.le_0_l.
  - simpl. destruct (part_originalname p =? "") eqn:Hn; simpl.
    + apply String.eqb_eq in Hn.
      destruct (IH _ _ _ _ H) as [-> [-> [Hlp [Hlv Hall]]]].
      repeat split; auto.
    + destruct (part_field p =? "photos") eqn:Hp.
      * apply String.eqb_eq in Hp.
        assert (Hv : (part_field p =? "videos") = false) by (rewrite Hp; reflexivity).
        rewrite Hv.
        destruct lp as [|lp]; [discriminate|].
        destruct (take_parts lp lv tl) as [[ps' vs']|] eqn:Htl; [|discriminate].
        injection H as <- <-.
        destruct (IH _ _ _ _ Htl) as [-> [-> [Hlp [Hlv Hall]]]].
        simpl. repeat split; auto using le_n_S.
      * destruct (part_field p =? "videos") eqn:Hv; [|discriminate].
        apply String.eqb_eq in Hv.
        destruct lv as [|lv]; [discriminate|].
        destruct (take_parts lp lv tl) as [[ps' vs']|] eqn:Htl; [|discriminate].
        injection H as <- <-.
        destruct (IH _ _ _ _ Htl) as [-> [-> [Hlp [Hlv Hall]]]].
        simpl. repeat split; auto using le_n_S.
Qed.

Lemma take_parts_accepts (parts : list FilePart) :
  forall (lp lv : nat),
    Forall declared parts ->
    (length (files_under "photos" parts) <= lp)%nat ->
    (length (files_under "videos" parts) <= lv)%nat ->
    exists ps vs, take_parts lp lv parts = Some (ps, vs).
Proof.
  unfold files_under, declared.
  induction parts as [|p tl IH]; intros lp lv Hall Hlp Hlv; simpl.
  - now exists [], [].
  - inversion Hall as [|? ? Hp Htl]; subst. simpl in Hlp, Hlv.
    destruct (part_originalname p =? "") eqn:En; simpl in Hlp, Hlv.
    + now apply IH.
    + destruct Hp as [Hp|Hp]; [rewrite Hp in En; discriminate|].
      destruct (part_field p =? "photos") eqn:Ep.
      * apply String.eqb_eq in Ep.
        assert (Ev : (part_field p =? "videos") = false) by (rewrite Ep; reflexivity).
        rewrite Ev in Hlv. simpl in Hlp.
        destruct lp as [|lp]; [inversion Hlp|].
        apply le_S_n in Hlp.
        destruct (IH lp lv Htl Hlp Hlv) as [ps [vs ->]]. now eexists; eexists.
      * destruct Hp as [Hp|Hp]; [rewrite Hp in Ep; discriminate|].
        rewrite Hp in *. simpl in *.
        destruct lv as [|lv]; [inversion Hlv|].
        apply le_S_n in Hlv.
        destruct (IH lp lv Htl Hlp Hlv) as [ps [vs ->]]. now eexists; eexists.
Qed.

(** X19.  The upload middleware lets a request through exactly when
    every file part that carries a file name is under [photos] or
    [videos] and neither field has more than 10 such parts; parts
    without file name do not count. *)
Theorem upload_fields_accepts (parts : list FilePart) :
  (exists fs, upload_fields parts = Some fs)
  <-> (Forall declared parts
       /\ (length (files_under "photos" parts) <= 10)%nat
       /\ (length (files_under "videos" parts) <= 10)%nat).
Proof.
  unfold upload_fields, maxCount. split.
  - intros [fs H].
    destruct (take_parts 10 10 parts) as [[ps vs]|] eqn:Ht; [|discriminate].
    destruct (take_parts_some _ _ _ Ht) as [-> [-> [Hp [Hv Hall]]]].
    rewrite !length_map in Hp, Hv. auto.
  - intros [Hall [Hp Hv]].
    destruct (take_parts_accepts Hall Hp Hv) as [ps [vs ->]]. now eexists.
Qed.

(** X20.  What the route finds in [req.files]: under each key the files
    of that field that carry a file name, in the order sent, each stored
    under its clock, a dash and its original name; a field without such
    a part has no key. *)
Theorem upload_fields_files (parts : list FilePart) (fs : Files) :
  upload_fields parts = Some fs ->
  paths_or_empty (files_photos fs) =
    map (fun p => "/uploads/" ++ storage_filename (part_clock p) (part_originalname p))
        (files_under "photos" parts)
  /\ paths_or_empty (files_videos fs) =
       map (fun p => "/uploads/" ++ storage_filename (part_clock p) (part_originalname p))
           (files_under "videos" parts)
  /\ (files_photos fs = None <-> files_under "photos" parts = [])
  /\ (files_videos fs = None <-> files_under "videos" parts = []).
Proof.
  unfold upload_fields. intros H.
  destruct (take_parts maxCount maxCount parts) as [[ps vs]|] eqn:Ht; [|discriminate].
  injection H as <-.
  destruct (take_parts_some _ _ _ Ht) as [-> [-> _]]. simpl.
  assert (Hkey : forall l : list FilePart,
            paths_or_empty (files_key (map store_part l)) =
              map (fun p => "/uploads/" ++
                            storage_filename (part_clock p) (part_originalname p)) l
            /\ (files_key (map store_part l) = None <-> l = [])).
  { intros [|p l]; simpl.
    - split; [reflexivity|split; reflexivity].
    - split; [now rewrite map_map|split; discriminate]. }
  destruct (Hkey (files_under "photos" parts)) as [Hp Hpn].
  destruct (Hkey (files_under "videos" parts)) as [Hv Hvn].
  auto.
Qed.

Section UploadsAndEdits.

Variable number : Type.
Variable castObjectId : string -> option ObjectId.

(** X21.  An edit whose files went through the upload middleware adds
    at most 10 photos and at most 10 videos to the marker. *)
Theorem editMarker_adds_at_most_ten (st : Store number) (id : string) (req : EditForm)
    (parts : list FilePart) (oid : ObjectId) (marker : Marker number) :
  upload_fields parts = Some (edit_files req) ->
  castObjectId id = Some oid ->
  find_marker oid (markers st) = Some marker ->
  exists marker' st',
    run (editMarker castObjectId id req) st =
      (json 200 (json_marker marker'), st', [io_emit (updatedMarker marker')])
    /\ (length (marker_photos marker') <= length (marker_photos marker) + 10)%nat
    /\ (length (marker_videos marker') <= length (marker_videos marker) + 10)%nat.
Proof.
  intros Hup Hcast Hfind.
  exists (apply_edit req marker). eexists.
  split; [apply editMarker_found with (oid := oid); assumption|].
  unfold upload_fields in Hup.
  destruct (take_parts maxCount maxCount parts) as [[ps vs]|] eqn:Ht; [|discriminate].
  injection Hup as Hfs.
  destruct (take_parts_some _ _ _ Ht) as [_ [_ [Lp [Lv _]]]].
  assert (Happ : forall (l : list File) (old : list string),
            append_uploads (files_key l) old = (old ++ map upload_path l)%list).
  { intros [|f l] old; simpl; [now rewrite app_nil_r|reflexivity]. }
  simpl. rewrite <- Hfs. simpl. rewrite !Happ, !length_app, !length_map.
  split; apply Nat.add_le_mono_l; assumption.
Qed.

End UploadsAndEdits.

(** The mounted route, past the abbreviations of a section. *)
Ltac unfold_mounted := unfold run, postMarkers, behind_upload, upload_fields.

Section MountedMarkers.

Variable number : Type.
Variable parseFloat : string -> option number.
Variable castObjectId : string -> option ObjectId.
Variable json_number : number -> option number.

Local Abbreviation postMarkers := (postMarkers parseFloat castObjectId).

(** C7, at the message the handler does not survive.  An
    [updatePosition] message without payload has no numeric latitude or
    longitude, yet it is not dropped in silence: the listener's promise
    is rejected, where a message whose payload is an object without
    coordinates is dropped and the promise fulfilled. *)
Theorem updatePosition_without_payload (st : Store number) (userId : string) :
  run (on_updatePosition_message castObjectId None) st = (rejected, st, [])
  /\ run (on_updatePosition_message castObjectId
            (Some (mkPositionMsg userId js_undefined js_undefined))) st
       = (fulfilled, st, []).
Proof. split; reflexivity. Qed.

(** C6, as the route has it.  When the files of the request are within
    the caps of the upload middleware (every part with a file name under
    [photos] or [videos], at most 10 under each), latitude and longitude
    parse to numbers that JSON carries unchanged, and the creator id is
    absent, empty or the text of an ObjectId, the answer is 201 with the
    created marker: it carries the parsed latitude and longitude, also
    as the client reads them, and the id assigned to it; it is the last
    document of the collection, and it is what every connected socket
    receives as [newMarker].  When the files are not within the caps the
    middleware answers 500 and the handler does not run. *)
Theorem postMarkers_created (env : Env) (st : Store number) (t : MarkerText)
    (parts : list FilePart) (conns : list SocketId) (lat lng : number)
    (creator : option ObjectId) :
  (Forall declared parts ->
   (length (files_under "photos" parts) <= 10)%nat ->
   (length (files_under "videos" parts) <= 10)%nat ->
   parseFloat_field parseFloat (text_latitude t) = Some lat ->
   parseFloat_field parseFloat (text_longitude t) = Some lng ->
   json_number lat = Some lat ->
   json_number lng = Some lng ->
   cast_createdBy castObjectId (text_userId t) = Ok creator ->
   exists m r,
     run (postMarkers env t parts) st =
       (route_answer r, mkStore (users st) (markers st ++ [m]), [io_emit (newMarker m)])
     /\ status r = 201%N
     /\ payload r = json_marker m
     /\ marker_latitude m = lat
     /\ marker_longitude m = lng
     /\ wire_latitude json_number m = Some lat
     /\ wire_longitude json_number m = Some lng
     /\ marker_id m = new_id env
     /\ marker_createdBy m = creator
     /\ forall s, In s conns -> received conns s [io_emit (newMarker m)] = [newMarker m])
  /\ (upload_fields parts = None ->
      run (postMarkers env t parts) st = (upload_error, st, [])).
Proof.
  split.
  - intros Hall Hp Hv Hlat Hlng Jlat Jlng Hby.
    destruct (take_parts_accepts Hall Hp Hv) as [ps [vs Ht]].
    pose proof (@addMarker_run_created number parseFloat castObjectId env st
                  (marker_form t (mkFiles (files_key ps) (files_key vs)))
                  lat lng creator Hlat Hlng Hby) as Hrun.
    unfold_mounted. unfold maxCount. rewrite Ht.
    unfold run in *.
    match type of Hrun with
    | (let '(_, _) := ?h in _) = _ => destruct h as [r s']
    end.
    injection Hrun as Hr Hs He. subst r. rewrite Hs, He.
    eexists. eexists. split; [reflexivity|].
    simpl. unfold wire_latitude, wire_longitude. simpl.
    repeat split; try assumption.
    intros s Hin. now apply received_io_emit.
  - intros Hnone. unfold_mounted. unfold upload_fields in Hnone.
    destruct (take_parts maxCount maxCount parts) as [[ps vs]|]; [discriminate|].
    reflexivity.
Qed.

End MountedMarkers.

(** ** What every transition keeps *)

Section Kept.

Variable number : Type.
Variable zero : number.
Variable parseFloat : string -> option number.
Variable bcrypt_digest : N -> string -> string -> string.
Variable bcrypt_verify : string -> string -> bool.
Variable castObjectId : string -> option ObjectId.
Variable findOne_undefined : list (User number) -> option (User number).

Local Abbreviation step :=
  (step zero parseFloat bcrypt_digest bcrypt_verify castObjectId findOne_undefined).
Local Abbreviation steps :=
  (steps zero parseFloat bcrypt_digest bcrypt_verify castObjectId findOne_undefined).
Local Abbreviation World := (World number).
Local Abbreviation Store := (Store number).

(** *** The stores a handler can leave *)

Lemma register_store (env : Env) (req : RegisterBody) (st : Store) :
  snd (fst (run (register zero bcrypt_digest findOne_undefined env req) st)) = st
  \/ exists u,
       snd (fst (run (register zero bcrypt_digest findOne_undefined env req) st)) =
         mkStore (users st ++ [u]) (markers st)
       /\ existsb (fun x => user_email x =? user_email u) (users st) = false.
Proof.
  autounfold with routes.
  unfold User_findOne, User_create, required_string, bcrypt_hash.
  route_cases; try (left; reflexivity).
  right. eexists. split; [reflexivity|]. simpl. assumption.
Qed.

Lemma login_store (req : LoginBody) (st : Store) :
  snd (fst (run (login bcrypt_verify findOne_undefined req) st)) = st.
Proof. now rewrite login_run. Qed.

Lemma addMarker_store (env : Env) (req : MarkerForm) (st : Store) :
  snd (fst (run (addMarker parseFloat castObjectId env req) st)) = st
  \/ exists m,
       snd (fst (run (addMarker parseFloat castObjectId env req) st)) =
         mkStore (users st) (markers st ++ [m]).
Proof.
  autounfold with routes. unfold Marker_create, cast_number. unfold_createdBy.
  route_cases; try (left; reflexivity).
  all: right; eexists; reflexivity.
Qed.

Lemma editMarker_store (id : string) (req : EditForm) (st : Store) :
  snd (fst (run (editMarker castObjectId id req) st)) = st
  \/ exists oid marker,
       find_marker oid (markers st) = Some marker
       /\ snd (fst (run (editMarker castObjectId id req) st)) =
            mkStore (users st) (update_marker (apply_edit req marker) (markers st)).
Proof.
  autounfold with routes. unfold Marker_findById, Marker_save.
  route_cases; try (left; reflexivity).
  right. eexists. eexists. split; [eassumption|reflexivity].
Qed.

Lemma updatePosition_store (msg : PositionMsg number) (st : Store) :
  snd (fst (run (updatePosition castObjectId msg) st)) = st
  \/ exists oid u latitude longitude,
       find_user oid (users st) = Some u
       /\ snd (fst (run (updatePosition castObjectId msg) st)) =
            mkStore (update_user (set_position latitude longitude u) (users st))
                    (markers st).
Proof.
  autounfold with routes. unfold User_findByIdAndUpdate.
  route_cases; try (left; reflexivity).
  right. do 4 eexists. split; [eassumption|reflexivity].
Qed.

(** *** [keeps] is a preorder *)

Lemma prefix_of_refl {A : Type} (l : list A) : prefix_of l l.
Proof. exists []. now rewrite app_nil_r. Qed.

Lemma prefix_of_trans {A : Type} (l1 l2 l3 : list A) :
  prefix_of l1 l2 -> prefix_of l2 l3 -> prefix_of l1 l3.
Proof.
  intros [t1 ->] [t2 ->]. exists (t1 ++ t2)%list. now rewrite app_assoc.
Qed.

Lemma same_account_refl (u : User number) : same_account u u.
Proof. repeat split. Qed.

Lemma same_account_trans (u1 u2 u3 : User number) :
  same_account u1 u2 -> same_account u2 u3 -> same_account u1 u3.
Proof.
  intros [A1 [A2 [A3 [A4 A5]]]] [B1 [B2 [B3 [B4 B5]]]].
  repeat split; congruence.
Qed.

Lemma same_marker_refl (m : Marker number) : same_marker m m.
Proof. repeat split; apply prefix_of_refl. Qed.

Lemma same_marker_trans (m1 m2 m3 : Marker number) :
  same_marker m1 m2 -> same_marker m2 m3 -> same_marker m1 m3.
Proof.
  intros [A1 [A2 [A3 [A4 [A5 [A6 A7]]]]]] [B1 [B2 [B3 [B4 [B5 [B6 B7]]]]]].
  repeat split; try congruence; eapply prefix_of_trans; eassumption.
Qed.

Lemma Forall2_same {A : Type} (R : A -> A -> Prop) (l : list A) :
  (forall x, R x x) -> Forall2 R l l.
Proof. intros HR. induction l; constructor; auto. Qed.

(** Two growths of a list, one after the other. *)
Lemma grown_twice {A : Type} (R : A -> A -> Prop) (l1 l2 l3 : list A) :
  (forall x y z, R x y -> R y z -> R x z) ->
  (exists a e, l2 = (a ++ e)%list /\ Forall2 R l1 a) ->
  (exists a e, l3 = (a ++ e)%list /\ Forall2 R l2 a) ->
  exists a e, l3 = (a ++ e)%list /\ Forall2 R l1 a.
Proof.
  intros HR [a [e [-> H12]]] [b [f [-> H23]]].
  apply Forall2_app_inv_l in H23. destruct H23 as [b1 [b2 [Hb1 [Hb2 ->]]]].
  exists b1, (b2 ++ f)%list. split; [now rewrite app_assoc|].
  clear Hb2. revert b1 Hb1. induction H12 as [|x y l1 a Hxy _ IH]; intros b1 Hb1.
  - inversion Hb1. constructor.
  - inversion Hb1 as [|? z ? b1' Hyz Hrest]; subst.
    constructor; [now apply HR with (y := y)|now apply IH].
Qed.

Lemma keeps_refl (st : Store) : keeps st st.
Proof.
  split; eexists; exists []; (split; [now rewrite app_nil_r|]);
    apply Forall2_same; [apply same_account_refl|apply same_marker_refl].
Qed.

Lemma keeps_trans (st1 st2 st3 : Store) :
  keeps st1 st2 -> keeps st2 st3 -> keeps st1 st3.
Proof.
  intros [U12 M12] [U23 M23]. split.
  - exact (grown_twice same_account_trans U12 U23).
  - exact (grown_twice same_marker_trans M12 M23).
Qed.

(** *** Each write keeps *)

Lemma update_user_kept (oid : ObjectId) (u u' : User number) (l : list (User number)) :
  find_user oid l = Some u -> user_id u' = oid -> same_account u u' ->
  Forall2 (@same_account number) l (update_user u' l).
Proof.
  intros Hf Hid Hs. induction l as [|x tl IH]; [constructor|].
  simpl in *. rewrite Hid. destruct (user_id x =? oid)%N.
  - injection Hf as ->. constructor; [exact Hs|].
    apply Forall2_same, same_account_refl.
  - constructor; [apply same_account_refl|now apply IH].
Qed.

Lemma update_marker_kept (oid : ObjectId) (m m' : Marker number)
    (l : list (Marker number)) :
  find_marker oid l = Some m -> marker_id m' = oid -> same_marker m m' ->
  Forall2 (@same_marker number) l (update_marker m' l).
Proof.
  intros Hf Hid Hs. induction l as [|x tl IH]; [constructor|].
  simpl in *. rewrite Hid. destruct (marker_id x =? oid)%N.
  - injection Hf as ->. constructor; [exact Hs|].
    apply Forall2_same, same_marker_refl.
  - constructor; [apply same_marker_refl|now apply IH].
Qed.

Lemma apply_edit_kept (req : EditForm) (m : Marker number) :
  same_marker m (apply_edit req m).
Proof.
  repeat split; simpl; unfold append_uploads.
  - destruct (files_photos (edit_files req)); [now eexists|apply prefix_of_refl].
  - destruct (files_videos (edit_files req)); [now eexists|apply prefix_of_refl].
Qed.

Lemma keeps_users (st : Store) (us : list (User number)) :
  Forall2 (@same_account number) (users st) us -> keeps st (mkStore us (markers st)).
Proof.
  intros H. split; eexists; exists []; simpl; (split; [now rewrite app_nil_r|]).
  - exact H.
  - apply Forall2_same, same_marker_refl.
Qed.

Lemma keeps_markers (st : Store) (ms : list (Marker number)) :
  Forall2 (@same_marker number) (markers st) ms -> keeps st (mkStore (users st) ms).
Proof.
  intros H. split; eexists; exists []; simpl; (split; [now rewrite app_nil_r|]).
  - apply Forall2_same, same_account_refl.
  - exact H.
Qed.

Lemma keeps_new_user (st : Store) (u : User number) :
  keeps st (mkStore (users st ++ [u]) (markers st)).
Proof.
  split; simpl.
  - exists (users st), [u]. split; [reflexivity|apply Forall2_same, same_account_refl].
  - exists (markers st), []. split; [now rewrite app_nil_r|].
    apply Forall2_same, same_marker_refl.
Qed.

Lemma keeps_new_marker (st : Store) (m : Marker number) :
  keeps st (mkStore (users st) (markers st ++ [m])).
Proof.
  split; simpl.
  - exists (users st), []. split; [now rewrite app_nil_r|].
    apply Forall2_same, same_account_refl.
  - exists (markers st), [m]. split; [reflexivity|apply Forall2_same, same_marker_refl].
Qed.

Lemma w_store_perform {A : Type} (h : State number -> A * State number) (w : World) :
  w_store (perform h w) = snd (fst (run h (w_store w))).
Proof. now rewrite perform_eq. Qed.

Lemma step_keeps (w w' : World) (a : action number) :
  step w a = Some w' -> keeps (w_store w) (w_store w').
Proof.
  intros Ha.
  destruct a as [s|s|s|env req|req|env req|id req|s msg|s]; step_in Ha;
    try (destruct (existsb (N.eqb s) (w_fetching w)); [|discriminate];
         destruct (snapshot_of w s); try discriminate;
         simpl in Ha; apply Some_eq in Ha; subst w'; apply keeps_refl).
  - destruct (is_connected w s || existsb (N.eqb s) (w_fetching w)); [discriminate|].
    apply Some_eq in Ha. subst w'. apply keeps_refl.
  - destruct (is_connected w s); [|discriminate].
    apply Some_eq in Ha. subst w'. apply keeps_refl.
  - apply Some_eq in Ha. subst w'. rewrite w_store_perform.
    destruct (register_store env req (w_store w)) as [-> | [u [-> _]]];
      [apply keeps_refl|apply keeps_new_user].
  - apply Some_eq in Ha. subst w'. rewrite w_store_perform, login_store.
    apply keeps_refl.
  - apply Some_eq in Ha. subst w'. rewrite w_store_perform.
    destruct (addMarker_store env req (w_store w)) as [-> | [m ->]];
      [apply keeps_refl|apply keeps_new_marker].
  - apply Some_eq in Ha. subst w'. rewrite w_store_perform.
    destruct (editMarker_store id req (w_store w)) as [-> | [oid [m [Hf ->]]]];
      [apply keeps_refl|].
    apply keeps_markers.
    apply update_marker_kept with (oid := oid) (m := m);
      [exact Hf|simpl; now apply find_marker_id with (l := markers (w_store w))
      |apply apply_edit_kept].
  - destruct (is_connected w s); [|discriminate].
    apply Some_eq in Ha. subst w'. rewrite w_store_perform.
    destruct (updatePosition_store msg (w_store w))
      as [-> | [oid [u [lat [lng [Hf ->]]]]]]; [apply keeps_refl|].
    apply keeps_users.
    apply update_user_kept with (oid := oid) (u := u);
      [exact Hf|simpl; now apply find_user_id with (l := users (w_store w))
      |repeat split].
Qed.

Lemma steps_keeps (trace : list (action number)) (w w' : World) :
  steps w trace = Some w' -> keeps (w_store w) (w_store w').
Proof.
  revert w. induction trace as [|a tl IH]; intros w Hrun; simpl in Hrun.
  - apply Some_eq in Hrun. subst w'. apply keeps_refl.
  - destruct (step w a) as [w1|] eqn:Ha; [|discriminate].
    apply keeps_trans with (st2 := w_store w1); [now apply step_keeps with (a := a)|].
    now apply IH.
Qed.

Lemma Forall2_In_left {A : Type} (R : A -> A -> Prop) (l l' : list A) (x : A) :
  Forall2 R l l' -> In x l -> exists y, In y l' /\ R x y.
Proof.
  induction 1 as [|a b l l' Hab _ IH]; intros Hin; [destruct Hin|].
  destruct Hin as [<-|Hin].
  - exists b. split; [now left|exact Hab].
  - destruct (IH Hin) as [y [Hy Hxy]]. exists y. split; [now right|exact Hxy].
Qed.

(** X22.  Nothing is ever lost.  Whatever the server does (connections,
    requests, position messages, in any order), every marker that was
    stored is still stored, with the same id, coordinates, creator and
    creation time, its photos and videos extended at the end at most;
    every user that was stored is still stored with the same id, name,
    email, password digest and creation time; and neither collection has
    become shorter. *)
Theorem nothing_is_lost (trace : list (action number)) (w w' : World) :
  steps w trace = Some w' ->
  (forall m, In m (markers (w_store w)) ->
     exists m', In m' (markers (w_store w')) /\ same_marker m m')
  /\ (forall u, In u (users (w_store w)) ->
        exists u', In u' (users (w_store w')) /\ same_account u u')
  /\ (length (markers (w_store w)) <= length (markers (w_store w')))%nat
  /\ (length (users (w_store w)) <= length (users (w_store w')))%nat.
Proof.
  intros Hrun.
  destruct (@steps_keeps trace w w' Hrun) as [[us [ue [Hu HU]]] [ms [me [Hm HM]]]].
  split; [|split; [|split]].
  - intros m Hin. destruct (@Forall2_In_left _ _ _ _ m HM Hin) as [m' [Hin' Hs]].
    exists m'. split; [|exact Hs]. rewrite Hm. apply in_or_app. now left.
  - intros u Hin. destruct (@Forall2_In_left _ _ _ _ u HU Hin) as [u' [Hin' Hs]].
    exists u'. split; [|exact Hs]. rewrite Hu. apply in_or_app. now left.
  - rewrite Hm, length_app, <- (Forall2_length HM). apply Nat.le_add_r.
  - rewrite Hu, length_app, <- (Forall2_length HU). apply Nat.le_add_r.
Qed.

(** *** Emails *)

Lemma existsb_email_false (e : string) (l : list (User number)) :
  existsb (fun x => user_email x =? e) l = false ->
  ~ In e (map (fun u => user_email u) l).
Proof.
  intros Hex Hin. apply in_map_iff in Hin. destruct Hin as [x [Hx Hin]].
  assert (Ht : existsb (fun x => user_email x =? e) l = true).
  { apply existsb_exists. exists x. split; [exact Hin|]. rewrite Hx. apply String.eqb_refl. }
  rewrite Ht in Hex. discriminate.
Qed.

Lemma NoDup_snoc {A : Type} (l : list A) (x : A) :
  NoDup l -> ~ In x l -> NoDup (l ++ [x]).
Proof.
  intros Hnd Hx. apply NoDup_app; [exact Hnd|repeat constructor; intros []|].
  intros a Ha [<-|[]]. now apply Hx.
Qed.

Lemma step_unique_emails (w w' : World) (a : action number) :
  step w a = Some w' -> unique_emails (w_store w) -> unique_emails (w_store w').
Proof.
  unfold unique_emails. intros Ha Hu.
  destruct a as [s|s|s|env req|req|env req|id req|s msg|s]; step_in Ha;
    try (destruct (existsb (N.eqb s) (w_fetching w)); [|discriminate];
         destruct (snapshot_of w s); try discriminate;
         simpl in Ha; apply Some_eq in Ha; subst w'; exact Hu).
  - destruct (is_connected w s || existsb (N.eqb s) (w_fetching w)); [discriminate|].
    apply Some_eq in Ha. now subst w'.
  - destruct (is_connected w s); [|discriminate].
    apply Some_eq in Ha. now subst w'.
  - apply Some_eq in Ha. subst w'. rewrite w_store_perform.
    destruct (register_store env req (w_store w)) as [-> | [u [-> Hnew]]]; [exact Hu|].
    simpl. rewrite map_app. simpl.
    apply NoDup_snoc; [exact Hu|now apply existsb_email_false].
  - apply Some_eq in Ha. subst w'. now rewrite w_store_perform, login_store.
  - apply Some_eq in Ha. subst w'. rewrite w_store_perform.
    destruct (addMarker_store env req (w_store w)) as [-> | [m ->]]; exact Hu.
  - apply Some_eq in Ha. subst w'. rewrite w_store_perform.
    destruct (editMarker_store id req (w_store w)) as [-> | [oid [m [_ ->]]]]; exact Hu.
  - destruct (is_connected w s); [|discriminate].
    apply Some_eq in Ha. subst w'. rewrite w_store_perform.
    destruct (updatePosition_store msg (w_store w))
      as [-> | [oid [u [lat [lng [Hf ->]]]]]]; [exact Hu|].
    simpl.
    rewrite (@update_user_emails number oid u (set_position lat lng u)
               (users (w_store w)) Hf);
      [exact Hu|simpl; now apply find_user_id with (l := users (w_store w))|reflexivity].
Qed.

(** X23.  Emails stay unique.  If no two stored users share an email,
    then whatever the server does, no two stored users share an email
    afterwards. *)
Theorem emails_stay_unique (trace : list (action number)) (w w' : World) :
  unique_emails (w_store w) ->
  steps w trace = Some w' ->
  unique_emails (w_store w').
Proof.
  revert w. induction trace as [|a tl IH]; intros w Hu Hrun; simpl in Hrun.
  - apply Some_eq in Hrun. now subst w'.
  - destruct (step w a) as [w1|] eqn:Ha; [|discriminate].
    apply (IH w1); [|exact Hrun]. now apply step_unique_emails with (w := w) (a := a).
Qed.

Lemma unique_email_selects (l : list (User number)) (u : User number) :
  NoDup (map (fun u => user_email u) l) -> In u l ->
  find (fun x => user_email x =? user_email u) l = Some u.
Proof.
  induction l as [|x tl IH]; intros Hnd Hin; [destruct Hin|].
  simpl in *. inversion Hnd as [|? ? Hx Htl]; subst.
  destruct Hin as [->|Hin].
  - now rewrite String.eqb_refl.
  - destruct (user_email x =? user_email u) eqn:He.
    + apply String.eqb_eq in He. exfalso. apply Hx. rewrite He.
      apply in_map_iff. now exists u.
    + now apply IH.
Qed.

(** X24.  While emails are unique, every stored user can log in: a
    login with the email of a stored user and a password bcrypt accepts
    against that user's digest is answered 200 with that user's id and
    name. *)
Theorem every_user_can_login (st : Store) (u : User number) (pw : string) :
  unique_emails st ->
  In u (users st) ->
  bcrypt_verify pw (user_password u) = true ->
  run (login bcrypt_verify findOne_undefined (mkLoginBody (Some (user_email u)) (Some pw))) st
    = (json 200 (json_user (user_id u) (user_name u)), st, []).
Proof.
  intros Hu Hin Hok. rewrite login_run. simpl.
  rewrite (unique_email_selects _ _ Hu Hin). simpl. now rewrite Hok.
Qed.

End Kept.

(** ** The further properties on concrete requests *)

Section InstancesMore.

Import Sample.

(** [register_created] on Bob's registration. *)
Lemma register_created_witness :
  select_email findOne_undefined (Some "bob@example.org") (users alice_store) = None
  /\ exists u,
       run (Sample.register env0 bob_request) alice_store =
         (json 201 (json_user (user_id u) (user_name u)),
          mkStore (users alice_store ++ [u]) (markers alice_store), [])
       /\ user_password u = "salt$pw"
       /\ user_latitude u = zero
       /\ user_longitude u = zero.
Proof.
  split; [reflexivity|].
  destruct (@register_created number zero bcrypt_digest findOne_undefined env0 alice_store
              bob_request "Bob" "bob@example.org" "pw")
    as [u [Hrun [_ [_ [_ [Hpw [Hlat [Hlng _]]]]]]]];
    try reflexivity; try discriminate.
  exists u. auto.
Defined.

(** [register_without_name] on a request that has no name. *)
Lemma register_without_name_witness :
  run (Sample.register env0 nameless_request) alice_store =
    (json 500 (json_error (ValidationError "name")), alice_store, []).
Proof.
  apply (@register_without_name number zero bcrypt_digest findOne_undefined env0
           alice_store nameless_request "pw");
    [now left|reflexivity|reflexivity].
Defined.

(** [login_without_password] on Alice's email. *)
Lemma login_without_password_witness :
  run (Sample.login (mkLoginBody (Some "alice@example.org") None)) alice_store =
    (json 500 (json_error BcryptArguments), alice_store, []).
Proof.
  apply (@login_without_password number bcrypt_verify findOne_undefined alice_store
           (mkLoginBody (Some "alice@example.org") None) alice);
    reflexivity.
Defined.

(** [register_then_login] on Bob. *)
Lemma register_then_login_witness :
  bcrypt_verify "pw" (bcrypt_digest 10 (salt env0) "pw") = true
  /\ exists st',
       run (Sample.register env0 bob_request) alice_store =
         (json 201 (json_user 1%N "Bob"), st', [])
       /\ run (Sample.login (mkLoginBody (Some "bob@example.org") (Some "pw"))) st' =
            (json 200 (json_user 1%N "Bob"), st', [])
       /\ run (Sample.login (mkLoginBody (Some "bob@example.org") (Some "pW"))) st' =
            (json 400 (json_message "Email ou mot de passe incorrect"), st', []).
Proof.
  split; [reflexivity|].
  destruct (@register_then_login number zero bcrypt_digest bcrypt_verify findOne_undefined
              env0 alice_store bob_request "Bob" "bob@example.org" "pw")
    as [st' [Hreg [Hin Hbad]]];
    try reflexivity; try discriminate.
  exists st'. split; [exact Hreg|split; [exact Hin|]].
  apply Hbad. reflexivity.
Defined.

(** [addMarker_document] on a form with two photos and no color. *)
Lemma addMarker_document_witness :
  exists m,
    run (Sample.addMarker env0 louvre_form) alice_store =
      (json 201 (json_marker m), mkStore (users alice_store) (markers alice_store ++ [m]),
       [io_emit (newMarker m)])
    /\ marker_color m = "#ff0000"
    /\ marker_photos m = ["/uploads/4-d.png"; "/uploads/5-e.png"]
    /\ marker_videos m = [].
Proof.
  destruct (@addMarker_document number parseFloat castObjectId env0 alice_store louvre_form
              (mkDecimal 4886 2) (mkDecimal 229 2) (Some 10%N) eq_refl eq_refl eq_refl)
    as [m [Hrun [_ [_ [Hcol [_ [_ [_ [Hph [_ [_ [Hvid _]]]]]]]]]]]].
  exists m. split; [exact Hrun|split; [now apply Hcol|split; [|now apply Hvid]]].
  now rewrite (Hph _ eq_refl).
Defined.

(** [addMarker_creator] on a form without creator and on one whose
    creator is the text [me]. *)
Lemma addMarker_creator_witness :
  (exists m,
     run (Sample.addMarker env0 eiffel_form) empty_store =
       (json 201 (json_marker m), mkStore [] [m], [io_emit (newMarker m)])
     /\ marker_createdBy m = None)
  /\ run (Sample.addMarker env0 bad_creator_form) empty_store =
       (json 500 (json_error (ValidationError "createdBy")), empty_store, []).
Proof.
  split.
  - destruct (proj1 (@addMarker_creator number parseFloat castObjectId env0 empty_store
                       eiffel_form (mkDecimal 4885 2) (mkDecimal 235 2) eq_refl eq_refl))
      as [m [Hrun Hby]]; [now left|].
    exists m. split; [exact Hrun|exact Hby].
  - apply (proj2 (proj2 (@addMarker_creator number parseFloat castObjectId env0 empty_store
                           bad_creator_form (mkDecimal 4886 2) (mkDecimal 229 2)
                           eq_refl eq_refl)) "me");
      [reflexivity|discriminate|reflexivity].
Defined.

(** [editMarker_frame] on an edit of the second marker of a store. *)
Lemma editMarker_frame_witness :
  exists marker' st',
    run (Sample.editMarker gallery_id add_two_photos) gallery_store =
      (json 200 (json_marker marker'), st', [io_emit (updatedMarker marker')])
    /\ marker_id marker' = 2%N
    /\ users st' = users gallery_store
    /\ length (markers st') = 2%nat
    /\ find_marker 1%N (markers st') = Some eiffel.
Proof.
  destruct (@editMarker_frame number castObjectId gallery_store gallery_id add_two_photos
              2%N gallery eq_refl eq_refl)
    as [marker' [st' [Hrun [Hid [_ [_ [_ [_ [Hus [Hlen [_ Hother]]]]]]]]]]].
  exists marker', st'.
  split; [exact Hrun|split; [exact Hid|split; [exact Hus|split; [exact Hlen|]]]].
  rewrite (Hother 1%N); [reflexivity|discriminate].
Defined.

(** [editMarker_nothing_sent] on the Eiffel marker. *)
Lemma editMarker_nothing_sent_witness :
  run (Sample.editMarker eiffel_id nothing_sent) eiffel_store =
    (json 200 (json_marker eiffel), eiffel_store, [io_emit (updatedMarker eiffel)]).
Proof.
  apply (@editMarker_nothing_sent number castObjectId eiffel_store eiffel_id 1%N eiffel);
    reflexivity.
Defined.

(** [editMarker_twice] on a marker with three photos: two more, then two
    more again; the title of the first edit stays, the color of the
    second is written. *)
Lemma editMarker_twice_witness :
  exists m1 st1 m2 st2,
    run (Sample.editMarker gallery_id add_two_photos) gallery_store =
      (json 200 (json_marker m1), st1, [io_emit (updatedMarker m1)])
    /\ run (Sample.editMarker gallery_id recolor) st1 =
         (json 200 (json_marker m2), st2, [io_emit (updatedMarker m2)])
    /\ length (marker_photos m2) = 7%nat
    /\ marker_title m2 = "Louvre"
    /\ marker_color m2 = "#123456".
Proof.
  destruct (@editMarker_twice number castObjectId gallery_store gallery_id add_two_photos
              recolor 2%N gallery eq_refl eq_refl)
    as [m1 [st1 [m2 [st2 [H1 [H2 [_ [Hp [_ [Ht [_ Hc]]]]]]]]]]].
  exists m1, st1, m2, st2.
  split; [exact H1|split; [exact H2|split; [|split; [exact Ht|exact Hc]]]].
  now rewrite Hp.
Defined.

(** [addMarker_then_editMarker]: the Eiffel marker is created under id 1
    and then retitled through the text of that id. *)
Lemma addMarker_then_editMarker_witness :
  find_marker (new_id env0) (markers empty_store) = None
  /\ castObjectId eiffel_id = Some (new_id env0)
  /\ exists m st',
       run (Sample.addMarker env0 eiffel_form) empty_store =
         (json 201 (json_marker m), st', [io_emit (newMarker m)])
       /\ exists st'',
            run (Sample.editMarker eiffel_id retitle) st' =
              (json 200 (json_marker (apply_edit retitle m)), st'',
               [io_emit (updatedMarker (apply_edit retitle m))])
            /\ length (markers st'') = 1%nat.
Proof.
  split; [reflexivity|split; [reflexivity|]].
  destruct (@addMarker_then_editMarker number parseFloat castObjectId env0 empty_store
              eiffel_form eiffel_id retitle (mkDecimal 4885 2) (mkDecimal 235 2) None
              eq_refl eq_refl eq_refl eq_refl eq_refl)
    as [m [st' [Hadd [_ [_ [st'' [Hedit [_ Hlen]]]]]]]].
  exists m, st'. split; [exact Hadd|].
  exists st''. split; [exact Hedit|exact Hlen].
Defined.

(** [updatePosition_frame] on Alice, in a store that also holds Bob's
    markers. *)
Lemma updatePosition_frame_witness :
  exists u' st' ems,
    run (Sample.updatePosition
           (mkPositionMsg alice_id (js_number (mkDecimal 4885 2))
                          (js_number (mkDecimal 235 2))))
        gallery_store = (tt, st', ems)
    /\ find_user 10%N (users st') = Some u'
    /\ user_email u' = "alice@example.org"
    /\ user_password u' = "salt$secret"
    /\ markers st' = markers gallery_store.
Proof.
  destruct (@updatePosition_frame number castObjectId gallery_store alice_id
              (mkDecimal 4885 2) (mkDecimal 235 2) 10%N alice eq_refl eq_refl)
    as [u' [st' [ems [Hrun [Hf [_ [_ [He [Hp [_ [Hm _]]]]]]]]]]].
  exists u', st', ems. auto.
Defined.

(** [updatePosition_twice] on Alice: the second position is the one
    stored. *)
Lemma updatePosition_twice_witness :
  exists st1 st2 ems1,
    run (Sample.updatePosition
           (mkPositionMsg alice_id (js_number (mkDecimal 1 0)) (js_number (mkDecimal 2 0))))
        alice_store = (tt, st1, ems1)
    /\ run (Sample.updatePosition
              (mkPositionMsg alice_id (js_number (mkDecimal 3 0))
                             (js_number (mkDecimal 4 0))))
           st1
         = (tt, st2, [io_emit (positionsUpdate 10%N "Alice" (mkDecimal 3 0) (mkDecimal 4 0))])
    /\ find_user 10%N (users st2) = Some (set_position (mkDecimal 3 0) (mkDecimal 4 0) alice).
Proof.
  destruct (@updatePosition_twice number castObjectId alice_store alice_id
              (mkDecimal 1 0) (mkDecimal 2 0) (mkDecimal 3 0) (mkDecimal 4 0)
              10%N alice eq_refl eq_refl)
    as [st1 [st2 [ems1 [H1 [H2 [_ Hf]]]]]].
  exists st1, st2, ems1. auto.
Defined.

(** [updatePosition_then_listUsers] on Alice. *)
Lemma updatePosition_then_listUsers_witness :
  exists st' ems views,
    run (Sample.updatePosition
           (mkPositionMsg alice_id (js_number (mkDecimal 4885 2))
                          (js_number (mkDecimal 235 2))))
        alice_store = (tt, st', ems)
    /\ run Sample.listUsers st' = ((200%N, json_users views), st', [])
    /\ In (mkUserView 10%N "Alice" "alice@example.org"
                      (mkDecimal 4885 2) (mkDecimal 235 2) 0%N) views.
Proof.
  destruct (@updatePosition_then_listUsers number castObjectId alice_store alice_id
              (mkDecimal 4885 2) (mkDecimal 235 2) 10%N alice eq_refl eq_refl)
    as [st' [ems [views [Hrun [Hlist [_ Hin]]]]]].
  exists st', ems, views. auto.
Defined.

(** [storage_filename_injective]: an original name with a dash in it is
    still read back. *)
Lemma storage_filename_injective_witness :
  storage_filename 17%N "a-b.png" = "17-a-b.png"
  /\ (storage_filename 17%N "a-b.png" = storage_filename 17%N "a-b.png"
      -> 17%N = 17%N /\ "a-b.png" = "a-b.png").
Proof.
  split; [reflexivity|].
  apply (proj1 (storage_filename_injective 17%N 17%N "a-b.png" "a-b.png")).
Defined.

(** [upload_fields_accepts] on two photos, a video and two parts without
    file. *)
Lemma upload_fields_accepts_witness :
  exists fs, upload_fields mixed_parts = Some fs.
Proof.
  apply (proj2 (upload_fields_accepts mixed_parts)).
  split; [|split].
  - repeat (constructor; [unfold declared; simpl; auto|]). constructor.
  - simpl. repeat constructor.
  - simpl. repeat constructor.
Defined.

(** [upload_fields_files] on the same parts. *)
Lemma upload_fields_files_witness :
  upload_fields mixed_parts =
    Some (mkFiles (Some [mkFile "d.png" "4-d.png"; mkFile "e.png" "5-e.png"])
                  (Some [mkFile "clip.mp4" "4-clip.mp4"]))
  /\ paths_or_empty
       (files_photos (mkFiles (Some [mkFile "d.png" "4-d.png"; mkFile "e.png" "5-e.png"])
                              (Some [mkFile "clip.mp4" "4-clip.mp4"])))
     = ["/uploads/4-d.png"; "/uploads/5-e.png"].
Proof.
  split; [reflexivity|].
  exact (proj1 (@upload_fields_files mixed_parts
                  (mkFiles (Some [mkFile "d.png" "4-d.png"; mkFile "e.png" "5-e.png"])
                           (Some [mkFile "clip.mp4" "4-clip.mp4"]))
                  eq_refl)).
Defined.

(** [editMarker_adds_at_most_ten] on an edit that carries the files of
    those parts. *)
Lemma editMarker_adds_at_most_ten_witness :
  exists marker' st',
    run (Sample.editMarker gallery_id
           (mkEditForm None None None
              (mkFiles (Some [mkFile "d.png" "4-d.png"; mkFile "e.png" "5-e.png"])
                       (Some [mkFile "clip.mp4" "4-clip.mp4"]))))
        gallery_store =
      (json 200 (json_marker marker'), st', [io_emit (updatedMarker marker')])
    /\ (length (marker_photos marker') <= 3 + 10)%nat.
Proof.
  destruct (@editMarker_adds_at_most_ten number castObjectId gallery_store gallery_id
              (mkEditForm None None None
                 (mkFiles (Some [mkFile "d.png" "4-d.png"; mkFile "e.png" "5-e.png"])
                          (Some [mkFile "clip.mp4" "4-clip.mp4"])))
              mixed_parts 2%N gallery eq_refl eq_refl eq_refl)
    as [marker' [st' [Hrun [Hp _]]]].
  exists marker', st'. split; [exact Hrun|exact Hp].
Defined.

(** [nothing_is_lost] and [emails_stay_unique] over a run with a
    registration, an edit, a creation and a position update. *)
Lemma nothing_is_lost_witness :
  exists w',
    Sample.steps (boot gallery_store) busy_day = Some w'
    /\ (exists m', In m' (markers (w_store w')) /\ same_marker eiffel m')
    /\ (2 <= length (markers (w_store w')))%nat.
Proof.
  destruct (Sample.steps (boot gallery_store) busy_day) as [w'|] eqn:Hrun;
    [|vm_compute in Hrun; discriminate].
  exists w'. split; [reflexivity|].
  destruct (@nothing_is_lost number zero parseFloat bcrypt_digest bcrypt_verify castObjectId
              findOne_undefined busy_day (boot gallery_store) w' Hrun)
    as [Hm [_ [Hlen _]]].
  split; [|exact Hlen].
  apply Hm. now left.
Defined.

Lemma emails_stay_unique_witness :
  unique_emails gallery_store
  /\ exists w',
       Sample.steps (boot gallery_store) busy_day = Some w'
       /\ unique_emails (w_store w').
Proof.
  assert (Hu : unique_emails gallery_store) by (repeat constructor; intros []).
  split; [exact Hu|].
  destruct (Sample.steps (boot gallery_store) busy_day) as [w'|] eqn:Hrun;
    [|vm_compute in Hrun; discriminate].
  exists w'. split; [reflexivity|].
  exact (@emails_stay_unique number zero parseFloat bcrypt_digest bcrypt_verify castObjectId
           findOne_undefined busy_day (boot gallery_store) w' Hu Hrun).
Defined.

(** [every_user_can_login] on Alice. *)
Lemma every_user_can_login_witness :
  run (Sample.login (mkLoginBody (Some "alice@example.org") (Some "secret"))) gallery_store =
    (json 200 (json_user 10%N "Alice"), gallery_store, []).
Proof.
  apply (@every_user_can_login number bcrypt_verify findOne_undefined gallery_store alice
           "secret").
  - repeat constructor. intros [].
  - now left.
  - reflexivity.
Defined.

(** [postMarkers_created] on latitude 48.85, longitude 2.35 and title
    Eiffel, with two photos, a video and two parts without file, while
    sockets 7 and 8 are connected; and on eleven photos. *)
Lemma postMarkers_created_witness :
  (exists m r,
     run (Sample.postMarkers env0 eiffel_text mixed_parts) empty_store =
       (route_answer r, mkStore [] [m], [io_emit (newMarker m)])
     /\ status r = 201%N
     /\ payload r = json_marker m
     /\ marker_latitude m = mkDecimal 4885 2
     /\ marker_longitude m = mkDecimal 235 2
     /\ marker_id m = 1%N
     /\ received [7%N; 8%N] 8%N [io_emit (newMarker m)] = [newMarker m])
  /\ run (Sample.postMarkers env0 eiffel_text eleven_photos) empty_store =
       (upload_error, empty_store, []).
Proof.
  split.
  - destruct (proj1 (@postMarkers_created number parseFloat castObjectId json_number env0
                       empty_store eiffel_text mixed_parts [7%N; 8%N]
                       (mkDecimal 4885 2) (mkDecimal 235 2) None))
      as [m [r [Hrun [Hst [Hpay [Hlat [Hlng [_ [_ [Hid [_ Hall]]]]]]]]]]];
      try reflexivity.
    + repeat (constructor; [unfold declared; simpl; auto|]). constructor.
    + simpl. repeat constructor.
    + simpl. repeat constructor.
    + exists m, r.
      split; [exact Hrun|split; [exact Hst|split; [exact Hpay|split; [exact Hlat|]]]].
      split; [exact Hlng|split; [exact Hid|]].
      apply Hall. right. now left.
  - apply (proj2 (@postMarkers_created number parseFloat castObjectId json_number env0
                    empty_store eiffel_text eleven_photos [] (mkDecimal 0 0) (mkDecimal 0 0)
                    None)).
    reflexivity.
Defined.

End InstancesMore.
